(** * HL_LIMIT_CHASE_V2: the limit-chase engine, its gateway and its dispatcher

    A shallow embedding of [limit_chase.py], of the consumer loop of
    [limit_chase_usage.py] and of the parts of [executor.py] they call.

    - Python [float] is IEEE-754 binary64, taken from [SpecFloat]
      ([prec = 53], [emax = 1024], round to nearest even).
    - Python exceptions are an error type [exn]; a call either returns
      [Ok v] or [Raise e].
    - The venue (the Hyperliquid SDK behind [HyperliquidExecutor]) is an
      abstract state [V]; each SDK call is a function of that state.
    - [LimitChaser] is a record threaded through a state-and-error monad
      together with the venue and the log of gateway calls.
    - [print] and [logger] output is not modelled. *)

From stdpp Require Import base strings gmap list pretty.
From Stdlib Require Import ZArith Lia Ascii Floats.SpecFloat.

Set Warnings "-register-all".
#[local] Open Scope Z_scope.

(** ** Python floats (binary64) *)

Definition float : Type := spec_float.

Definition prec : Z := 53.
Definition emax : Z := 1024.

Inductive exn : Type :=
| ZeroDivisionError
| ValueError
| OverflowError
| TypeError
| AttributeError
| AccountNotInitializedError
| VenueError (msg : string).

Inductive Res (A : Type) : Type :=
| Ok (a : A)
| Raise (e : exn).
Arguments Ok {A} a.
Arguments Raise {A} e.

Definition res_bind {A B} (r : Res A) (k : A -> Res B) : Res B :=
  match r with
  | Ok a => k a
  | Raise e => Raise e
  end.

#[export] Instance Res_ret : MRet Res := fun _ a => Ok a.
#[export] Instance Res_bind : MBind Res := fun _ _ k r => res_bind r k.

Definition zero : float := S754_zero false.

Definition is_zero (x : float) : bool :=
  match x with
  | S754_zero _ => true
  | _ => false
  end.

Definition float_mul (x y : float) : float := SFmul prec emax x y.
Definition float_sub (x y : float) : float := SFsub prec emax x y.
Definition float_abs (x : float) : float := SFabs x.

(** [x / y] on floats: [ZeroDivisionError] when [y] is [0.0] or [-0.0],
    the correctly rounded quotient otherwise (infinities and NaN included). *)
Definition float_div (x y : float) : Res float :=
  if is_zero y then Raise ZeroDivisionError else Ok (SFdiv prec emax x y).

(** [x >= y] and [x > y]; both are [False] when a NaN is involved. *)
Definition float_ge (x y : float) : bool := SFleb y x.
Definition float_gt (x y : float) : bool := SFltb y x.

(** [math.floor]: an exact integer; [ValueError] on NaN, [OverflowError]
    on an infinity. *)
Definition math_floor (x : float) : Res Z :=
  match x with
  | S754_zero _ => Ok 0
  | S754_finite s m e => Ok (Z.shiftl (cond_Zopp s (Zpos m)) e)
  | S754_infinity _ => Raise OverflowError
  | S754_nan => Raise ValueError
  end.

(** The conversion of [int * float]: the nearest float,
    [OverflowError] when the integer is out of range. *)
Definition float_of_int (z : Z) : Res float :=
  match binary_normalize prec emax z 0 false with
  | S754_infinity _ => Raise OverflowError
  | f => Ok f
  end.

Definition int_mul_float (k : Z) (y : float) : Res float :=
  x ← float_of_int k; Ok (float_mul x y).

(** The float denoted by the decimal literal [n/d] for integers [n], [d]
    that binary64 holds exactly: the correctly rounded quotient. *)
Definition decimal (n d : Z) : float :=
  SFdiv prec emax (binary_normalize prec emax n 0 false)
                  (binary_normalize prec emax d 0 false).

(** ** Python values: the JSON the venue answers with *)

Inductive pyval : Type :=
| PNone
| PBool (b : bool)
| PInt (z : Z)
| PFloat (f : float)
| PStr (s : string)
| PList (l : list pyval)
| PDict (d : gmap string pyval).

(** Truth value of an object, as [or] and [if] test it. *)
Definition truthy (v : pyval) : bool :=
  match v with
  | PNone => false
  | PBool b => b
  | PInt z => negb (z =? 0)
  | PFloat f => negb (is_zero f)
  | PStr s => negb (String.eqb s "")
  | PList l => match l with [] => false | _ => true end
  | PDict d => negb (Nat.eqb (size d) 0)
  end.

(** [v.get(key)]: the entry or [None] on a dict, [AttributeError] on
    anything else. *)
Definition py_get (v : pyval) (key : string) : Res pyval :=
  match v with
  | PDict d => Ok (default PNone (d !! key))
  | _ => Raise AttributeError
  end.

(** [v == s] for a string literal [s]. *)
Definition eq_str (v : pyval) (s : string) : bool :=
  match v with
  | PStr s' => String.eqb s' s
  | _ => false
  end.

(** ** [str(int)] and [int(str)] for order ids

    [py_int] accepts what [int] accepts on an ASCII string in base 10:
    surrounding whitespace (tab to carriage return, the four separators
    28 to 31, space), one sign, digits with single underscores between
    them. Two things of CPython are left out: the digits and blanks
    outside ASCII that [int] also accepts, and the limit of 4300 digits
    (by default) above which both conversions raise [ValueError]. Order
    ids are far below that limit; a statement that depends on it carries
    the bound [Z.abs oid < 10 ^ 4300]. *)

Definition py_str (z : Z) : string := pretty z.

Definition is_space (c : ascii) : bool :=
  let n := nat_of_ascii c in
  ((9 <=? n)%nat && (n <=? 13)%nat) || ((28 <=? n)%nat && (n <=? 32)%nat).

Definition digit_of (c : ascii) : option Z :=
  let n := nat_of_ascii c in
  if ((48 <=? n)%nat && (n <=? 57)%nat) then Some (Z.of_nat n - 48) else None.

Fixpoint lstrip (s : string) : string :=
  match s with
  | String c s' => if is_space c then lstrip s' else s
  | EmptyString => s
  end.

Definition strip (s : string) : string :=
  String.rev (lstrip (String.rev (lstrip s))).

(** [after_digit] tells whether the previous character was a digit, the
    only place where an underscore or the end of the literal may follow. *)
Fixpoint parse_digits (s : string) (after_digit : bool) (acc : Z) : option Z :=
  match s with
  | EmptyString => if after_digit then Some acc else None
  | String c s' =>
      match digit_of c with
      | Some d => parse_digits s' true (10 * acc + d)
      | None =>
          if (Ascii.eqb c "_" && after_digit)%bool
          then parse_digits s' false acc
          else None
      end
  end.

Definition py_int (s : string) : Res Z :=
  let parsed :=
    match strip s with
    | String "-" ds => Z.opp <$> parse_digits ds false 0
    | String "+" ds => parse_digits ds false 0
    | ds => parse_digits ds false 0
    end in
  match parsed with
  | Some z => Ok z
  | None => Raise ValueError
  end.

(** ** Data types of [limit_chase.py] *)

Record Quote : Type := {
  ts_ms : Z;
  bid_px : float;
  bid_sz : float;
  ask_px : float;
  ask_sz : float
}.

(** ** [HyperliquidExecutor]

    The venue is a state [V]. [exchange_cancel] and [query_order_by_oid]
    are the SDK calls [self.exchange.cancel] and
    [self.exchange.info.query_order_by_oid(self.address, _)]; they may
    raise. [execute_limit_order] is the executor's method as a whole
    (symbol, is_buy, size_in_asset, limit_price): its body rounds the
    price to five significant figures and parses the SDK's answer, and the
    chaser depends on its [int | None] result only. *)

Record HyperliquidExecutor (V : Type) : Type := {
  execute_limit_order : string -> bool -> float -> float -> V -> Res (option Z) * V;
  exchange_cancel : string -> Z -> V -> Res pyval * V;
  query_order_by_oid : Z -> V -> Res pyval * V
}.
Arguments execute_limit_order {V}.
Arguments exchange_cancel {V}.
Arguments query_order_by_oid {V}.

(** [cancel_order]: [True] when the SDK answers [{"status": "ok"}]; every
    exception of the [try] block is caught and gives [False]. *)
Definition cancel_order {V} (executor : HyperliquidExecutor V)
    (symbol : string) (order_id : Z) (v : V) : bool * V :=
  match exchange_cancel executor symbol order_id v with
  | (Ok cancel_result, v') =>
      match py_get cancel_result "status" with
      | Ok st => (eq_str st "ok", v')
      | Raise _ => (false, v')
      end
  | (Raise _, v') => (false, v')
  end.

(** [get_order_status]: the SDK's answer, [None] when the query raises. *)
Definition get_order_status {V} (executor : HyperliquidExecutor V)
    (order_id : Z) (v : V) : pyval * V :=
  match query_order_by_oid executor order_id v with
  | (Ok status, v') => (status, v')
  | (Raise _, v') => (PNone, v')
  end.

(** ** The gateway: what [LimitChaser] calls on [self.ex] *)

Record ExchangeClient (V : Type) : Type := {
  place_limit : string -> float -> float -> bool -> string -> V -> Res (option string) * V;
  cancel : string -> V -> Res unit * V;
  poll_fill : string -> V -> Res bool * V
}.
Arguments place_limit {V}.
Arguments cancel {V}.
Arguments poll_fill {V}.

(** The status a response carries, as [poll_fill] looks for it:
    [order_status.get("status") or (order_status.get("order") or {}).get("status")] *)
Definition response_status (order_status : pyval) : Res pyval :=
  top ← py_get order_status "status";
  if truthy top then Ok top
  else
    order ← py_get order_status "order";
    py_get (if truthy order then order else PDict ∅) "status".

Definition poll_fill_response (order_status : pyval) : Res bool :=
  match order_status with
  | PNone => Ok false
  | _ => status ← response_status order_status; Ok (eq_str status "filled")
  end.

Section LiveExchangeClient.
Context {V : Type} (executor : HyperliquidExecutor V) (coin : string).

Definition live_place_limit (side : string) (price size : float)
    (post_only : bool) (tif : string) (v : V) : Res (option string) * V :=
  let is_buy := bool_decide (side = "buy") in
  match execute_limit_order executor coin is_buy size price v with
  | (Ok order_id, v') => (Ok (py_str <$> order_id), v')
  | (Raise e, v') => (Raise e, v')
  end.

Definition live_cancel (order_id : string) (v : V) : Res unit * V :=
  match py_int order_id with
  | Ok oid => let '(_, v') := cancel_order executor coin oid v in (Ok tt, v')
  | Raise e => (Raise e, v)
  end.

Definition live_poll_fill (order_id : string) (v : V) : Res bool * V :=
  match py_int order_id with
  | Ok oid =>
      let '(order_status, v') := get_order_status executor oid v in
      (poll_fill_response order_status, v')
  | Raise e => (Raise e, v)
  end.

Definition LiveExchangeClient : ExchangeClient V := {|
  place_limit := live_place_limit;
  cancel := live_cancel;
  poll_fill := live_poll_fill
|}.
End LiveExchangeClient.

(** ** [LimitChaser]

    The object as [__init__] builds it: the seven constructor arguments
    and the four fields of the chase, [None] until an order is placed.
    [tolerance_ticks] and [max_chase_ticks] are floats as annotated; the
    integers the scripts pass (1 and 10) are exact floats, and Python
    compares a float with an int by value. *)

Record LimitChaser : Type := {
  tick_size : float;
  side : string;
  order_size : float;
  post_only : bool;
  tolerance_ticks : float;
  max_age_ms : Z;
  max_chase_ticks : float;
  order_id : option string;
  order_px : option float;
  start_px : option float;
  placed_ts : option Z
}.

Definition LimitChaser_init (tick_size : float) (side : string)
    (order_size : float) (post_only : bool) (tolerance_ticks : float)
    (max_age_ms : Z) (max_chase_ticks : float) : LimitChaser := {|
  tick_size := tick_size;
  side := side;
  order_size := order_size;
  post_only := post_only;
  tolerance_ticks := tolerance_ticks;
  max_age_ms := max_age_ms;
  max_chase_ticks := max_chase_ticks;
  order_id := None;
  order_px := None;
  start_px := None;
  placed_ts := None
|}.

Definition with_order_id (x : option string) (c : LimitChaser) : LimitChaser :=
  {| tick_size := tick_size c; side := side c; order_size := order_size c;
     post_only := post_only c; tolerance_ticks := tolerance_ticks c;
     max_age_ms := max_age_ms c; max_chase_ticks := max_chase_ticks c;
     order_id := x; order_px := order_px c; start_px := start_px c;
     placed_ts := placed_ts c |}.

Definition with_order_px (x : option float) (c : LimitChaser) : LimitChaser :=
  {| tick_size := tick_size c; side := side c; order_size := order_size c;
     post_only := post_only c; tolerance_ticks := tolerance_ticks c;
     max_age_ms := max_age_ms c; max_chase_ticks := max_chase_ticks c;
     order_id := order_id c; order_px := x; start_px := start_px c;
     placed_ts := placed_ts c |}.

Definition with_start_px (x : option float) (c : LimitChaser) : LimitChaser :=
  {| tick_size := tick_size c; side := side c; order_size := order_size c;
     post_only := post_only c; tolerance_ticks := tolerance_ticks c;
     max_age_ms := max_age_ms c; max_chase_ticks := max_chase_ticks c;
     order_id := order_id c; order_px := order_px c; start_px := x;
     placed_ts := placed_ts c |}.

Definition with_placed_ts (x : option Z) (c : LimitChaser) : LimitChaser :=
  {| tick_size := tick_size c; side := side c; order_size := order_size c;
     post_only := post_only c; tolerance_ticks := tolerance_ticks c;
     max_age_ms := max_age_ms c; max_chase_ticks := max_chase_ticks c;
     order_id := order_id c; order_px := order_px c; start_px := start_px c;
     placed_ts := x |}.

(** A call made on the gateway, with its arguments. *)
Inductive Call : Type :=
| CallPlaceLimit (side : string) (price size : float) (post_only : bool) (tif : string)
| CallCancel (order_id : string)
| CallPollFill (order_id : string).

(** What a step of the engine runs in: the chaser object, the calls made
    on the gateway so far (oldest first), and the venue. *)
Record Env (V : Type) : Type := {
  self : LimitChaser;
  calls : list Call;
  venue : V
}.
Arguments Build_Env {V}.
Arguments self {V}.
Arguments calls {V}.
Arguments venue {V}.

(** State and exceptions: a raised exception keeps the state reached. *)
Definition M (V A : Type) : Type := Env V -> Res A * Env V.

#[export] Instance M_ret {V} : MRet (M V) := fun _ a env => (Ok a, env).
#[export] Instance M_bind {V} : MBind (M V) := fun _ _ k m env =>
  match m env with
  | (Ok a, env') => k a env'
  | (Raise e, env') => (Raise e, env')
  end.

Definition get_self {V} : M V LimitChaser := fun env => (Ok (self env), env).

Definition modify_self {V} (f : LimitChaser -> LimitChaser) : M V unit :=
  fun env => (Ok tt, Build_Env (f (self env)) (calls env) (venue env)).

Definition lift {V A} (r : Res A) : M V A := fun env => (r, env).

(** Reading a field that must hold a number: [TypeError] on [None]. *)
Definition need {A} (x : option A) : Res A :=
  match x with
  | Some a => Ok a
  | None => Raise TypeError
  end.

(** [await self.ex.m(...)]: the call is logged, the venue answers. *)
Definition await {V A} (c : Call) (op : V -> Res A * V) : M V A :=
  fun env =>
    let '(r, v') := op (venue env) in
    (r, Build_Env (self env) (calls env ++ [c]) v').

(** [math.floor(px / self.tick_size) * self.tick_size] *)
Definition _round_to_tick (c : LimitChaser) (px : float) : Res float :=
  q ← float_div px (tick_size c);
  k ← math_floor q;
  int_mul_float k (tick_size c).

(** [math.floor(px / self.tick_size)], the number of whole ticks in [px]. *)
Definition tick_count (c : LimitChaser) (px : float) : Res Z :=
  q ← float_div px (tick_size c); math_floor q.

Definition _reset {V} : M V unit :=
  modify_self (with_order_id None);;
  modify_self (with_order_px None);;
  modify_self (with_start_px None);;
  modify_self (with_placed_ts None).

(** [abs(a - b) / self.tick_size], the distance in ticks used for both
    [drift_ticks] and [total_chase_ticks]. *)
Definition ticks_between (c : LimitChaser) (a b : float) : Res float :=
  float_div (float_abs (float_sub a b)) (tick_size c).

(** The price the quote is chased at, before rounding. *)
Definition quoted_px (c : LimitChaser) (q : Quote) : float :=
  if bool_decide (side c = "buy") then bid_px q else ask_px q.

Section on_quote.
Context {V : Type} (ex : ExchangeClient V).

Definition ex_place_limit (side : string) (price size : float)
    (post_only : bool) (tif : string) : M V (option string) :=
  await (CallPlaceLimit side price size post_only tif)
        (place_limit ex side price size post_only tif).

Definition ex_cancel (order_id : string) : M V unit :=
  await (CallCancel order_id) (cancel ex order_id).

Definition ex_poll_fill (order_id : string) : M V bool :=
  await (CallPollFill order_id) (poll_fill ex order_id).

Definition on_quote (q : Quote) : M V (option string) :=
  c ← get_self;
  let now := ts_ms q in
  target_px ← lift (_round_to_tick c (quoted_px c q));
  match order_id c with
  | None =>
      modify_self (with_start_px (Some target_px));;
      modify_self (with_order_px (Some target_px));;
      oid ← ex_place_limit (side c) target_px (order_size c) (post_only c) "GTC";
      modify_self (with_order_id oid);;
      modify_self (with_placed_ts (Some now));;
      mret None
  | Some oid =>
      filled ← ex_poll_fill oid;
      if (filled : bool) then
        c ← get_self;
        (* the [filled] message formats [self.order_px] with [.2f] *)
        _ ← lift (need (order_px c));
        _reset;;
        mret (Some "filled")
      else
        c ← get_self;
        opx ← lift (need (order_px c));
        drift_ticks ← lift (ticks_between c target_px opx);
        pts ← lift (need (placed_ts c));
        let age_ms := now - pts in
        spx ← lift (need (start_px c));
        total_chase_ticks ← lift (ticks_between c target_px spx);
        let should_refresh :=
          float_ge drift_ticks (tolerance_ticks c) || (max_age_ms c <=? age_ms) in
        let should_abort := float_gt total_chase_ticks (max_chase_ticks c) in
        if should_abort then
          ex_cancel oid;;
          _reset;;
          mret (Some "aborted")
        else if should_refresh then
          ex_cancel oid;;
          oid' ← ex_place_limit (side c) target_px (order_size c) (post_only c) "GTC";
          modify_self (with_order_id oid');;
          modify_self (with_order_px (Some target_px));;
          modify_self (with_placed_ts (Some now));;
          mret None
        else mret None
  end.

End on_quote.

(** ** The consumer loop of [run]

    [quotes] is what [q.get()] delivers, in order. The loop leaves with
    [Returned out] on a fill or an abort, with [Propagated e] when
    [on_quote] raises, and is [Suspended] in [q.get()] when the quotes
    are used up. The engine is any [on_quote] over any state [S]; the
    second component of the result is [last_check]. *)

Definition REFRESH_INTERVAL_MS : Z := 500.

Inductive Exit : Type :=
| Returned (out : string)
| Propagated (e : exn)
| Suspended.

Definition is_terminal (out : option string) : option string :=
  match out with
  | Some o => if (String.eqb o "filled" || String.eqb o "aborted")%bool then Some o else None
  | None => None
  end.

Fixpoint consumer {S : Type} (engine : Quote -> S -> Res (option string) * S)
    (quotes : list Quote) (last_check : Z) (s : S) : Exit * Z * S :=
  match quotes with
  | [] => (Suspended, last_check, s)
  | quote :: rest =>
      let now := ts_ms quote in
      if now - last_check <? REFRESH_INTERVAL_MS then
        consumer engine rest last_check s
      else
        match engine quote s with
        | (Raise e, s') => (Propagated e, last_check, s')
        | (Ok out, s') =>
            let last_check := now in
            match is_terminal out with
            | Some o => (Returned o, last_check, s')
            | None => consumer engine rest last_check s'
            end
        end
  end.

(** Engines for observing the loop: [recording] notes each quote it is
    handed before passing it on. *)
Definition recording {S : Type} (engine : Quote -> S -> Res (option string) * S)
    (quote : Quote) (st : list Quote * S) : Res (option string) * (list Quote * S) :=
  let '(r, s') := engine quote (snd st) in
  (r, (fst st ++ [quote], s')).

(** ** A scripted venue for the scenarios

    [placements] are the answers of the successive [execute_limit_order]
    calls ([None] once used up), [filled] the order ids the venue reports
    as filled, [sent] what the executor was asked, oldest first. *)

Inductive Sent : Type :=
| SentOrder (symbol : string) (is_buy : bool) (size price : float)
| SentCancel (symbol : string) (order_id : Z)
| SentQuery (order_id : Z).

Record Paper : Type := {
  placements : list (option Z);
  filled : list Z;
  sent : list Sent
}.

Definition paper_order (symbol : string) (is_buy : bool) (size price : float)
    (v : Paper) : Res (option Z) * Paper :=
  (Ok (mjoin (head (placements v))),
   {| placements := tail (placements v); filled := filled v;
      sent := sent v ++ [SentOrder symbol is_buy size price] |}).

Definition paper_cancel (symbol : string) (order_id : Z) (v : Paper)
    : Res pyval * Paper :=
  (Ok (PDict {[ "status" := PStr "ok" ]}),
   {| placements := placements v; filled := filled v;
      sent := sent v ++ [SentCancel symbol order_id] |}).

Definition paper_query (order_id : Z) (v : Paper) : Res pyval * Paper :=
  (Ok (PDict {[ "order" :=
         PDict {[ "status" :=
           PStr (if bool_decide (order_id ∈ filled v) then "filled" else "open") ]} ]}),
   {| placements := placements v; filled := filled v;
      sent := sent v ++ [SentQuery order_id] |}).

Definition paper_executor : HyperliquidExecutor Paper := {|
  execute_limit_order := paper_order;
  exchange_cancel := paper_cancel;
  query_order_by_oid := paper_query
|}.

Definition paper (placements : list (option Z)) (filled : list Z) : Paper :=
  {| placements := placements; filled := filled; sent := [] |}.

(** The configuration of [limit_chase_usage.py]. *)
Definition COIN : string := "BTC".
Definition TICK_SIZE : float := decimal 1 2.
Definition TOLERANCE_TICKS : float := decimal 1 1.
Definition MAX_AGE_MS : Z := 5000.
Definition MAX_CHASE_TICKS : float := decimal 10 1.
Definition SIDE : string := "buy".
Definition ORDER_SIZE : float := decimal 2 10000.

Definition usage_chaser : LimitChaser :=
  LimitChaser_init TICK_SIZE SIDE ORDER_SIZE true TOLERANCE_TICKS MAX_AGE_MS MAX_CHASE_TICKS.

Definition quote_at (ts : Z) (bid ask : float) : Quote :=
  {| ts_ms := ts; bid_px := bid; bid_sz := decimal 1 1; ask_px := ask; ask_sz := decimal 1 1 |}.

(** ** Vocabulary of the properties *)

(** The chaser after [_reset]. *)
Definition cleared (c : LimitChaser) : LimitChaser :=
  with_placed_ts None (with_start_px None (with_order_px None (with_order_id None c))).

(** Idle with nothing left over, and Resting with everything set. *)
Definition is_idle (c : LimitChaser) : bool :=
  match order_id c, order_px c, start_px c, placed_ts c with
  | None, None, None, None => true
  | _, _, _, _ => false
  end.

Definition is_resting (c : LimitChaser) : bool :=
  match order_id c, order_px c, start_px c, placed_ts c with
  | Some _, Some _, Some _, Some _ => true
  | _, _, _, _ => false
  end.

(** The state C2 asks for, and the one the engine keeps: without an
    [order_id] the other three fields are not looked at. *)
Definition consistent (c : LimitChaser) : bool := is_idle c || is_resting c.

Definition coherent (c : LimitChaser) : bool :=
  match order_id c with
  | None => true
  | Some _ => is_resting c
  end.

Definition is_place (c : Call) : bool :=
  match c with
  | CallPlaceLimit _ _ _ _ _ => true
  | _ => false
  end.

(** Every [place_limit] among the calls [new] of one step comes with no
    order resting at the start of the step, or after a [cancel] of the
    resting order earlier in [new]. *)
Definition placed_idle_or_after_cancel (resting : option string) (new : list Call) : Prop :=
  forall pre c post, new = pre ++ c :: post -> is_place c = true ->
    match resting with
    | None => True
    | Some oid => In (CallCancel oid) pre
    end.

Definition places (new : list Call) : nat := length (List.filter is_place new).

(** ** Exact values of binary64 numbers

    A finite binary64 number is an integer multiple of [2^-1074], the
    least positive one; [scaled x] is that integer. *)
Definition is_finite (x : float) : bool :=
  match x with
  | S754_zero _ | S754_finite _ _ _ => true
  | _ => false
  end.

Definition scaled (x : float) : Z :=
  match x with
  | S754_finite s m e => cond_Zopp s (Zpos m) * 2 ^ (e + 1074)
  | _ => 0
  end.

(** What [float_of_int k] is when [k] came out of [math_floor]: either
    [0.0], or a normal number, and its value is [k] exactly. *)
Definition holds_exactly (k : Z) (y : float) : Prop :=
  math_floor y = Ok k /\ scaled y = k * 2 ^ 1074 /\
  (y = S754_zero false \/
   exists s M E, y = S754_finite s M E /\ digits2_pos M = 53%positive /\ -52 <= E <= 971).

(** What a response says, independently of how [poll_fill] reads it. *)
Definition reports_filled (resp : pyval) : Prop :=
  exists d, resp = PDict d /\
    (d !! "status" = Some (PStr "filled") \/
     exists o, d !! "order" = Some (PDict o) /\ o !! "status" = Some (PStr "filled")).

(** A dict answer of the expected shape that names no status: no status
    string at the top level, and an ["order"] entry that is absent or
    falsy, or an object without a status string. Answers with a truthy
    ["order"] entry that is not an object are not of this shape. *)
Definition well_shaped_without_status (resp : pyval) : Prop :=
  exists d, resp = PDict d /\
    (forall s, d !! "status" <> Some (PStr s)) /\
    (truthy (default PNone (d !! "order")) = false \/
     exists o, d !! "order" = Some (PDict o) /\ forall s, o !! "status" <> Some (PStr s)).

Definition with_side (x : string) (c : LimitChaser) : LimitChaser :=
  {| tick_size := tick_size c; side := x; order_size := order_size c;
     post_only := post_only c; tolerance_ticks := tolerance_ticks c;
     max_age_ms := max_age_ms c; max_chase_ticks := max_chase_ticks c;
     order_id := order_id c; order_px := order_px c; start_px := start_px c;
     placed_ts := placed_ts c |}.

(** ** The scenario of the usage script on the scripted venue *)

Definition live : ExchangeClient Paper := LiveExchangeClient paper_executor COIN.

(** The usage chaser with an order resting. *)
Definition resting_at (oid : string) (opx spx : float) (pts : Z) : LimitChaser :=
  with_placed_ts (Some pts)
    (with_order_id (Some oid)
       (with_order_px (Some opx) (with_start_px (Some spx) usage_chaser))).

Definition p100_0 : float := decimal 100 1.
Definition p100_5 : float := decimal 1005 10.
Definition p106_0 : float := decimal 106 1.

(** ** Vocabulary of the further properties *)

(** A gateway whose [place_limit] raises, the rest being [live]. *)
Definition down : ExchangeClient Paper := {|
  place_limit := fun _ _ _ _ _ v => (Raise (VenueError "down"), v);
  cancel := cancel live;
  poll_fill := poll_fill live
|}.

(** Timestamps at least one refresh interval apart, the first one counted
    from [last]. *)
Fixpoint spaced (last : Z) (ts : list Z) : Prop :=
  match ts with
  | [] => True
  | t :: rest => REFRESH_INTERVAL_MS <= t - last /\ spaced t rest
  end.

Fixpoint no_space (s : string) : bool :=
  match s with
  | EmptyString => true
  | String c rest => negb (is_space c) && no_space rest
  end.

(** The scripted venue answering every status query with [resp]. *)
Definition answering (resp : pyval) : HyperliquidExecutor Paper := {|
  execute_limit_order := paper_order;
  exchange_cancel := paper_cancel;
  query_order_by_oid := fun order_id v =>
    (Ok resp,
     {| placements := placements v; filled := filled v;
        sent := sent v ++ [SentQuery order_id] |})
|}.

(** ** [CountingLiveExchangeClient] of [test_limit_chase.py]

    The wrapper's two counters, next to the venue the wrapped gateway
    talks to. Each counter is bumped before the wrapped call is made. *)

Record Counting (V : Type) : Type := {
  _place_count : nat;
  _cancel_count : nat;
  inner_venue : V
}.
Arguments Build_Counting {V}.
Arguments _place_count {V}.
Arguments _cancel_count {V}.
Arguments inner_venue {V}.

Section CountingLiveExchangeClient.
Context {V : Type} (inner : ExchangeClient V).

Definition counting_place_limit (side : string) (price size : float)
    (post_only : bool) (tif : string) (w : Counting V)
    : Res (option string) * Counting V :=
  let '(r, v') := place_limit inner side price size post_only tif (inner_venue w) in
  (r, Build_Counting (S (_place_count w)) (_cancel_count w) v').

Definition counting_cancel (order_id : string) (w : Counting V)
    : Res unit * Counting V :=
  let '(r, v') := cancel inner order_id (inner_venue w) in
  (r, Build_Counting (_place_count w) (S (_cancel_count w)) v').

Definition counting_poll_fill (order_id : string) (w : Counting V)
    : Res bool * Counting V :=
  let '(r, v') := poll_fill inner order_id (inner_venue w) in
  (r, Build_Counting (_place_count w) (_cancel_count w) v').

Definition CountingLiveExchangeClient : ExchangeClient (Counting V) := {|
  place_limit := counting_place_limit;
  cancel := counting_cancel;
  poll_fill := counting_poll_fill
|}.

End CountingLiveExchangeClient.

Definition is_cancel (c : Call) : bool :=
  match c with
  | CallCancel _ => true
  | _ => false
  end.

Definition cancels (new : list Call) : nat := length (List.filter is_cancel new).

(** One when an order is tracked, zero otherwise. *)
Definition tracked (c : LimitChaser) : nat :=
  match order_id c with
  | Some _ => 1
  | None => 0
  end.

(** ** [execute_limit_order] of [executor.py]

    What is raised inside the method's [try] block: the exceptions of
    [exn] and the two lookup errors. *)

Inductive raised : Type :=
| Builtin (e : exn)
| KeyError
| IndexError.

Inductive Try (A : Type) : Type :=
| Returns (a : A)
| Throws (r : raised).
Arguments Returns {A} a.
Arguments Throws {A} r.

#[export] Instance Try_ret : MRet Try := fun _ a => Returns a.
#[export] Instance Try_bind : MBind Try := fun _ _ k t =>
  match t with
  | Returns a => k a
  | Throws r => Throws r
  end.

Definition of_res {A} (r : Res A) : Try A :=
  match r with
  | Ok a => Returns a
  | Raise e => Throws (Builtin e)
  end.

Fixpoint is_prefix (p s : string) : bool :=
  match p, s with
  | EmptyString, _ => true
  | String a p', String b s' => Ascii.eqb a b && is_prefix p' s'
  | String _ _, EmptyString => false
  end.

(** [p in s] on strings. *)
Fixpoint is_substring (p s : string) : bool :=
  is_prefix p s ||
  match s with
  | EmptyString => false
  | String _ s' => is_substring p s'
  end.

(** [key in v] for a string [key]: a key of a dict, a substring of a
    string, an element of a list; [TypeError] on what is not iterable. *)
Definition py_contains (key : string) (v : pyval) : Try bool :=
  match v with
  | PDict d => Returns (match d !! key with Some _ => true | None => false end)
  | PStr s => Returns (is_substring key s)
  | PList l => Returns (existsb (fun x => eq_str x key) l)
  | PNone | PBool _ | PInt _ | PFloat _ => Throws (Builtin TypeError)
  end.

(** [v[key]] for a string [key]: [KeyError] on a dict without it,
    [TypeError] on everything else. *)
Definition py_item (v : pyval) (key : string) : Try pyval :=
  match v with
  | PDict d =>
      match d !! key with
      | Some x => Returns x
      | None => Throws KeyError
      end
  | _ => Throws (Builtin TypeError)
  end.

(** [v[0]]: the head of a list, the first character of a string
    ([IndexError] when empty), [KeyError] on a dict (its keys are
    strings), [TypeError] otherwise. *)
Definition py_item0 (v : pyval) : Try pyval :=
  match v with
  | PList (x :: _) => Returns x
  | PList [] => Throws IndexError
  | PStr (String c _) => Returns (PStr (String c EmptyString))
  | PStr EmptyString => Throws IndexError
  | PDict _ => Throws KeyError
  | _ => Throws (Builtin TypeError)
  end.

(** [v.get(key, default)]. *)
Definition py_get_default (v : pyval) (key : string) (dflt : pyval) : Res pyval :=
  match v with
  | PDict d => Ok (default dflt (d !! key))
  | _ => Raise AttributeError
  end.

(** [int(v)]. *)
Definition py_int_of (v : pyval) : Try Z :=
  match v with
  | PInt z => Returns z
  | PBool b => Returns (if b then 1 else 0)
  | PStr s => of_res (py_int s)
  | PFloat (S754_zero _) => Returns 0
  | PFloat (S754_finite sg m e) => Returns (cond_Zopp sg (Z.shiftl (Zpos m) e))
  | PFloat (S754_infinity _) => Throws (Builtin OverflowError)
  | PFloat S754_nan => Throws (Builtin ValueError)
  | PNone | PList _ | PDict _ => Throws (Builtin TypeError)
  end.

Section execute_limit_order.
(** The venue, the SDK call [self.exchange.order(name, is_buy, sz,
    limit_px, {"limit": {"tif": "Gtc"}})], and three pieces of Python
    that are not modelled further: [round5] is
    [round(price, 4 - floor(log10(abs(price))))] for a non-zero price,
    [py_float] is [float(_)], [py_repr] is [str(_)] on what is not a
    string. *)
Context {V : Type}
        (exchange_order : string -> bool -> float -> float -> V -> Res pyval * V)
        (round5 : float -> Res float)
        (py_float : pyval -> Try float)
        (py_repr : pyval -> string).

Definition _round_limit_price_for_hyperliquid (price : float) : Res float :=
  if SFeqb price zero then Ok zero else round5 price.

Definition str_of (v : pyval) : string :=
  match v with
  | PStr s => s
  | _ => py_repr v
  end.

(** [int(oid) if oid is not None else None] *)
Definition oid_or_none (oid : pyval) : Try (option Z) :=
  match oid with
  | PNone => Returns None
  | _ => n ← py_int_of oid; Returns (Some n)
  end.

(** The body of the [try] block once the SDK has answered. Its log
    lines are left out: they print the answer and parts of it, which
    raises (an exception caught like everything else) only when the
    answer holds an integer of more than 4300 digits or is nested beyond
    the recursion limit; see [printable]. *)
Definition limit_order_answer (is_buy : bool) (zscore : option float)
    (trend : option string) (order_result : pyval) : Try (option Z) :=
  is_err ← (if truthy order_result
            then st ← of_res (py_get order_result "status"); Returns (eq_str st "err")
            else Returns false);
  if (is_err : bool) then
    err_msg ← of_res (py_get_default order_result "response"
                        (PStr (str_of order_result)));
    if is_substring "does not exist" (str_of err_msg)
    then Throws (Builtin AccountNotInitializedError)
    else Returns None
  else
    well_formed ←
      (if truthy order_result then
         st ← of_res (py_get order_result "status");
         if eq_str st "ok" then
           has_response ← py_contains "response" order_result;
           if (has_response : bool) then
             response ← py_item order_result "response";
             has_data ← py_contains "data" response;
             if (has_data : bool) then
               data ← py_item response "data";
               py_contains "statuses" data
             else Returns false
           else Returns false
         else Returns false
       else Returns false);
    if (well_formed : bool) then
      response ← py_item order_result "response";
      data ← py_item response "data";
      statuses ← py_item data "statuses";
      status ← py_item0 statuses;
      is_filled ← py_contains "filled" status;
      if (is_filled : bool) then
        filled_info ← py_item status "filled";
        oid ← of_res (py_get filled_info "oid");
        (* the log line reads [filled_info['totalSz']] and [filled_info['avgPx']] *)
        total_sz ← py_item filled_info "totalSz";
        avg_px ← py_item filled_info "avgPx";
        _ ← (if is_buy && bool_decide (is_Some zscore) && bool_decide (is_Some trend)
             then _ ← py_float total_sz; _ ← py_float avg_px; Returns tt
             else Returns tt);
        oid_or_none oid
      else
        is_resting ← py_contains "resting" status;
        if (is_resting : bool) then
          resting_info ← py_item status "resting";
          oid1 ← of_res (py_get resting_info "oid");
          oid ← (if truthy oid1 then Returns oid1
                 else of_res (py_get resting_info "orderId"));
          oid_or_none oid
        else Returns None
    else Returns None.

(** The method: the price is rounded outside the [try]; everything the
    SDK call or the reading of its answer raises is caught and gives
    [None]. *)
Definition sdk_execute_limit_order (zscore : option float) (trend : option string)
    (symbol : string) (is_buy : bool) (size_in_asset limit_price : float) (v : V)
    : Res (option Z) * V :=
  match _round_limit_price_for_hyperliquid limit_price with
  | Raise e => (Raise e, v)
  | Ok limit_px =>
      match exchange_order symbol is_buy size_in_asset limit_px v with
      | (Raise _, v') => (Ok None, v')
      | (Ok order_result, v') =>
          match limit_order_answer is_buy zscore trend order_result with
          | Returns r => (Ok r, v')
          | Throws _ => (Ok None, v')
          end
      end
  end.

(** The executor over the SDK, as [LiveExchangeClient] calls it (without
    [zscore] and [trend]). *)
Definition sdk_executor
    (exchange_cancel : string -> Z -> V -> Res pyval * V)
    (query_order_by_oid : Z -> V -> Res pyval * V) : HyperliquidExecutor V := {|
  execute_limit_order := sdk_execute_limit_order None None;
  exchange_cancel := exchange_cancel;
  query_order_by_oid := query_order_by_oid
|}.

End execute_limit_order.

(** An answer that carries the order id [n]: status ["ok"], and in the
    first entry of [response.data.statuses] either a ["filled"] object with
    an ["oid"] (and the two fields the log line reads), or no ["filled"]
    and a ["resting"] object with an ["oid"] or ["orderId"]. *)
Definition answer_carries (resp : pyval) (n : Z) : Prop :=
  exists d r dat st rest,
    resp = PDict d /\ d !! "status" = Some (PStr "ok") /\
    d !! "response" = Some (PDict r) /\ r !! "data" = Some (PDict dat) /\
    dat !! "statuses" = Some (PList (PDict st :: rest)) /\
    ((exists fi oid,
        st !! "filled" = Some (PDict fi) /\ fi !! "oid" = Some oid /\
        is_Some (fi !! "totalSz") /\ is_Some (fi !! "avgPx") /\
        py_int_of oid = Returns n) \/
     (st !! "filled" = None /\
      exists ri oid,
        st !! "resting" = Some (PDict ri) /\
        (ri !! "oid" = Some oid \/ ri !! "orderId" = Some oid) /\
        py_int_of oid = Returns n)).

(** A scripted SDK whose [order] call always answers [resp]. *)
Definition order_answering (resp : pyval) (symbol : string) (is_buy : bool)
    (size price : float) (v : Paper) : Res pyval * Paper :=
  (Ok resp,
   {| placements := placements v; filled := filled v;
      sent := sent v ++ [SentOrder symbol is_buy size price] |}).

Definition rejection : pyval :=
  PDict {[ "status" := PStr "err";
           "response" := PStr "User or API Wallet 0xabc does not exist." ]}.

Definition rejecting_executor : HyperliquidExecutor Paper :=
  sdk_executor (order_answering rejection) Ok
    (fun _ => Throws (Builtin ValueError)) (fun _ => EmptyString)
    paper_cancel paper_query.

(** The answer for an order resting under the id [n]. *)
Definition resting_answer (n : Z) : pyval :=
  PDict {[ "status" := PStr "ok";
           "response" :=
             PDict {[ "type" := PStr "order";
                      "data" :=
                        PDict {[ "statuses" :=
                          PList [PDict {[ "resting" := PDict {[ "oid" := PInt n ]} ]}] ]} ]} ]}.

(** What the f-strings of the log lines can print: CPython refuses to
    convert an integer of more than 4300 digits to a string
    ([ValueError]), also inside a list or a dict, and gives up on lists
    and dicts nested deeper than its recursion limit ([RecursionError]).
    [printable_within n v]: the integers of [v] have at most 4300 digits
    and its lists and dicts are nested at most [n] deep. *)
Inductive printable_within : nat -> pyval -> Prop :=
| printable_None (n : nat) : printable_within n PNone
| printable_Bool (n : nat) (b : bool) : printable_within n (PBool b)
| printable_Int (n : nat) (z : Z) : Z.abs z < 10 ^ 4300 -> printable_within n (PInt z)
| printable_Float (n : nat) (x : float) : printable_within n (PFloat x)
| printable_Str (n : nat) (s : string) : printable_within n (PStr s)
| printable_List (n : nat) (l : list pyval) :
    Forall (printable_within n) l -> printable_within (S n) (PList l)
| printable_Dict (n : nat) (d : gmap string pyval) :
    map_Forall (fun _ x => printable_within n x) d -> printable_within (S n) (PDict d).

(** Far below the default recursion limit of 1000. *)
Definition printable (v : pyval) : Prop := printable_within 100 v.

Definition three_quotes : list Quote :=
  [quote_at 1000 (decimal 1003 10) (decimal 1004 10);
   quote_at 1600 (decimal 1007 10) (decimal 1008 10);
   quote_at 2200 p106_0 (decimal 1065 10)].

(** ** [stream_l2_to_queue]: from a message to a quote

    [msg] is what [json.loads(raw)] gave, [now] is
    [int(time.time() * 1000)] at that moment, [py_float] is [float(_)].
    [None] stands for [continue]: nothing is put in the queue. *)

Section stream_l2_to_queue.
Context (py_float : pyval -> Try float).

Definition decode_l2 (now : Z) (msg : pyval) : Try (option Quote) :=
  channel ← of_res (py_get msg "channel");
  if negb (eq_str channel "l2Book") then Returns None
  else
    book ← of_res (py_get_default msg "data" (PDict ∅));
    levels ← of_res (py_get_default book "levels" (PList []));
    match levels with
    | PList (level0 :: level1 :: _) =>
        let bids := if truthy level0 then level0 else PList [] in
        let asks := if truthy level1 then level1 else PList [] in
        if negb (truthy bids && truthy asks) then Returns None
        else
          b0 ← py_item0 bids;
          a0 ← py_item0 asks;
          bpx ← py_item b0 "px"; bid_px ← py_float bpx;
          bsz ← py_item b0 "sz"; bid_sz ← py_float bsz;
          apx ← py_item a0 "px"; ask_px ← py_float apx;
          asz ← py_item a0 "sz"; ask_sz ← py_float asz;
          Returns (Some {| ts_ms := now; bid_px := bid_px; bid_sz := bid_sz;
                           ask_px := ask_px; ask_sz := ask_sz |})
    | _ => Returns None
    end.

(** The read loop over the messages received, each with the clock at its
    arrival: the quotes put in the queue, and the exception that ended
    the loop if one did. The queue's bound and the blocking [put] are not
    modelled. *)
Fixpoint stream (msgs : list (Z * pyval)) : list Quote * option raised :=
  match msgs with
  | [] => ([], None)
  | (now, msg) :: rest =>
      match decode_l2 now msg with
      | Throws r => ([], Some r)
      | Returns None => stream rest
      | Returns (Some q) => let '(qs, r) := stream rest in (q :: qs, r)
      end
  end.

End stream_l2_to_queue.

(** A book message with one level on each side. *)
Definition level (px sz : pyval) : pyval := PDict {[ "px" := px; "sz" := sz ]}.

Definition l2_message (bid ask : pyval) : pyval :=
  PDict {[ "channel" := PStr "l2Book";
           "data" := PDict {[ "coin" := PStr "BTC";
                              "levels" := PList [PList [bid]; PList [ask]] ]} ]}.

(** [float] on the two prices and the size the examples use. *)
Definition float_of_example (v : pyval) : Try float :=
  match v with
  | PStr "100.3" => Returns (decimal 1003 10)
  | PStr "100.4" => Returns (decimal 1004 10)
  | PStr "1.0" => Returns (decimal 1 1)
  | _ => Throws (Builtin ValueError)
  end.

(** * Properties *)

Arguments _round_to_tick : simpl never.
Arguments ticks_between : simpl never.
Arguments quoted_px : simpl never.
Arguments float_gt : simpl never.
Arguments float_ge : simpl never.
Arguments truthy : simpl never.

Ltac engine :=
  unfold on_quote, _reset, ex_poll_fill, ex_cancel, ex_place_limit, await,
    mbind, M_bind, get_self, lift, modify_self, mret, M_ret; cbn.

Ltac use H := rewrite H; cbn.


Example py_str_int : py_int (py_str 4711) = Ok 4711 /\ py_int " -1_0 " = Ok (-10)
  /\ py_int "1__0" = Raise ValueError /\ py_int "" = Raise ValueError.
Proof. vm_compute. auto. Qed.

Example py_str_signs : py_str 0 = "0" /\ py_str (-12) = "-12".
Proof. vm_compute. auto. Qed.

Example round_100_3 :
  _round_to_tick usage_chaser (decimal 1003 10) = Ok (decimal 100 1).
Proof. vm_compute. reflexivity. Qed.

(** ** Tick rounding *)

(** C6, as stated, fails: with [tick_size = 0.1] the price [4.35] rounds
    to [4.3], and [4.3] rounds to [4.2], because [4.3 / 0.1] is
    [42.99999999999999] in binary64. *)
Lemma round_to_tick_not_idempotent :
  let c := LimitChaser_init (decimal 1 10) SIDE ORDER_SIZE true
             TOLERANCE_TICKS MAX_AGE_MS MAX_CHASE_TICKS in
  float_gt (tick_size c) zero = true /\
  float_gt (decimal 435 100) zero = true /\
  _round_to_tick c (decimal 435 100) = Ok (decimal 43 10) /\
  _round_to_tick c (decimal 43 10) = Ok (decimal 42 10) /\
  _round_to_tick c (decimal 43 10) <> Ok (decimal 43 10).
Proof. vm_compute. repeat split; discriminate. Qed.

(** [math_floor] is the floor of the value [(-1)^s * m * 2^e]. *)
Lemma math_floor_finite (s : bool) (m : positive) (e : Z) :
  exists k, math_floor (S754_finite s m e) = Ok k /\
    if 0 <=? e then k = cond_Zopp s (Zpos m) * 2 ^ e
    else k * 2 ^ (- e) <= cond_Zopp s (Zpos m) < (k + 1) * 2 ^ (- e).
Proof.
  eexists; split; [reflexivity|].
  destruct (Z.leb_spec 0 e) as [He|He].
  - apply Z.shiftl_mul_pow2; lia.
  - assert (Hs : Z.shiftl (cond_Zopp s (Zpos m)) e = cond_Zopp s (Zpos m) / 2 ^ (- e)).
    { rewrite <- Z.shiftr_div_pow2 by lia. rewrite <- Z.shiftl_opp_r.
      f_equal. lia. }
    rewrite Hs.
    assert (Hp : 0 < 2 ^ (- e)) by (apply Z.pow_pos_nonneg; lia).
    set (P := 2 ^ (- e)) in *. set (a := cond_Zopp s (Zpos m)).
    pose proof (Z.div_mod a P ltac:(lia)) as Hd.
    pose proof (Z.mod_pos_bound a P Hp) as Hm.
    set (d := a / P) in *. lia.
Qed.

Lemma round_to_tick_unfold (c : LimitChaser) (p : float) :
  _round_to_tick c p =
    (k ← tick_count c p; x ← float_of_int k; Ok (float_mul x (tick_size c))).
Proof.
  unfold _round_to_tick, tick_count, int_mul_float.
  destruct (float_div p (tick_size c)) as [q|]; [|reflexivity].
  cbn. destruct (math_floor q); reflexivity.
Qed.

(** *** Binary64 arithmetic with the tick 0.5 *)

Lemma fexp_eq (e : Z) : fexp prec emax e = Z.max (e - 53) (-1074).
Proof. reflexivity. Qed.

Lemma half_eq : decimal 1 2 = S754_finite false 4503599627370496 (-53).
Proof. vm_compute. reflexivity. Qed.

Lemma digits2_iter_xO (a j : positive) :
  digits2_pos (Pos.iter xO a j) = (digits2_pos a + j)%positive.
Proof.
  induction j as [|j IH] using Pos.peano_ind.
  - cbn. lia.
  - rewrite Pos.iter_succ. cbn. rewrite IH. lia.
Qed.

Lemma Zpos_iter_xO (a j : positive) :
  Zpos (Pos.iter xO a j) = Zpos a * 2 ^ Zpos j.
Proof.
  induction j as [|j IH] using Pos.peano_ind.
  - cbn. lia.
  - rewrite Pos.iter_succ, Pos2Z.inj_xO, IH, Pos2Z.inj_succ, Z.pow_succ_r by lia. lia.
Qed.

(** A positive number has [digits2_pos] binary digits. *)
Lemma digits2_pos_bounds (a : positive) :
  2 ^ (Zpos (digits2_pos a) - 1) <= Zpos a < 2 ^ Zpos (digits2_pos a).
Proof.
  induction a as [a IH|a IH|]; cbn [digits2_pos]; [| |cbn; lia];
    rewrite Pos2Z.inj_succ;
    replace (Z.succ (Zpos (digits2_pos a)) - 1) with (Zpos (digits2_pos a)) by lia;
    rewrite Z.pow_succ_r by lia;
    assert (Hp : 2 ^ Zpos (digits2_pos a) = 2 * 2 ^ (Zpos (digits2_pos a) - 1))
      by (rewrite <- Z.pow_succ_r by lia; f_equal; lia);
    lia.
Qed.

Lemma digits2_pos_le (a : positive) (n : Z) :
  0 <= n -> Zpos a < 2 ^ n -> Zpos (digits2_pos a) <= n.
Proof.
  intros Hn Ha. pose proof (digits2_pos_bounds a) as [Hlo _].
  destruct (Z.le_gt_cases (Zpos (digits2_pos a)) n) as [|Hgt]; [assumption|].
  assert (2 ^ n <= 2 ^ (Zpos (digits2_pos a) - 1)) by (apply Z.pow_le_mono_r; lia).
  lia.
Qed.

(** A 53-bit mantissa with an exponent in range is left as it is. *)
Lemma binary_round_aux_canonical (s : bool) (M : positive) (E : Z) :
  digits2_pos M = 53%positive -> -1074 <= E ->
  binary_round_aux prec emax s (Zpos M) E loc_Exact =
    if E <=? 971 then S754_finite s M E else S754_infinity s.
Proof.
  intros HM HE.
  assert (H0 : fexp prec emax (Zdigits2 (Zpos M) + E) - E = 0).
  { cbn [Zdigits2]. rewrite HM, fexp_eq. lia. }
  unfold binary_round_aux, shr_fexp. rewrite H0.
  cbn [shr shr_record_of_loc shr_m loc_of_shr_record round_nearest_even].
  rewrite H0. cbn [shr shr_m]. reflexivity.
Qed.

(** A subnormal mantissa at the least exponent is left as it is. *)
Lemma binary_round_aux_subnormal (s : bool) (M : positive) :
  Zpos (digits2_pos M) <= 53 ->
  binary_round_aux prec emax s (Zpos M) (-1074) loc_Exact = S754_finite s M (-1074).
Proof.
  intros HM.
  assert (H0 : fexp prec emax (Zdigits2 (Zpos M) + -1074) - -1074 = 0).
  { cbn [Zdigits2]. rewrite fexp_eq. lia. }
  unfold binary_round_aux, shr_fexp. rewrite H0.
  cbn [shr shr_record_of_loc shr_m loc_of_shr_record round_nearest_even].
  rewrite H0. cbn [shr shr_m]. reflexivity.
Qed.

(** The float of a positive integer of at most 53 bits: the integer,
    shifted to a 53-bit mantissa. *)
Lemma binary_round_small (s : bool) (a : positive) :
  Zpos (digits2_pos a) <= 53 ->
  exists M E,
    binary_round prec emax s a 0 = S754_finite s M E /\
    digits2_pos M = 53%positive /\ -52 <= E <= 0 /\
    Zpos M = Zpos a * 2 ^ (- E).
Proof.
  intros Hd. unfold binary_round.
  assert (Hf : fexp prec emax (Zpos (digits2_pos a) + 0) = Zpos (digits2_pos a) - 53).
  { rewrite fexp_eq. lia. }
  cbn [Zdigits2]. rewrite Hf. unfold shl_align.
  destruct (Zpos (digits2_pos a) - 53 - 0) as [|j|j] eqn:Hj; try lia.
  - exists a, 0. assert (Hd53 : digits2_pos a = 53%positive) by lia.
    repeat split; try lia.
    rewrite binary_round_aux_canonical by (try exact Hd53; lia). reflexivity.
  - exists (Pos.iter xO a j), (Zpos (digits2_pos a) - 53).
    assert (HdM : digits2_pos (Pos.iter xO a j) = 53%positive).
    { rewrite digits2_iter_xO. lia. }
    repeat split; try lia; try exact HdM.
    + rewrite binary_round_aux_canonical by (try exact HdM; lia).
      destruct (Z.leb_spec (Zpos (digits2_pos a) - 53) 971); [reflexivity | lia].
    + rewrite Zpos_iter_xO. f_equal. f_equal. lia.
Qed.

Lemma iter_pos_iter {A} (f : A -> A) (n : positive) (x : A) :
  iter_pos f n x = Pos.iter f x n.
Proof.
  revert x. induction n as [n IH|n IH|]; intros x; cbn [iter_pos Pos.iter].
  - rewrite !IH, <- !Pos.iter_swap. reflexivity.
  - rewrite !IH. reflexivity.
  - reflexivity.
Qed.

(** Shifting out [n] zero bits is exact. *)
Lemma shr_zero_bits (n M : positive) :
  iter_pos shr_1 n {| shr_m := Zpos (Pos.iter xO M n); shr_r := false; shr_s := false |}
  = {| shr_m := Zpos M; shr_r := false; shr_s := false |}.
Proof.
  rewrite iter_pos_iter. revert M.
  induction n as [|n IH] using Pos.peano_ind; intros M.
  - reflexivity.
  - rewrite Pos.iter_succ. rewrite Pos.iter_succ_r. rewrite IH. reflexivity.
Qed.

(** The float of [M * 2^n] for a 53-bit [M]: mantissa [M], exponent [n]. *)
Lemma binary_round_big (s : bool) (M n : positive) :
  digits2_pos M = 53%positive ->
  binary_round prec emax s (Pos.iter xO M n) 0 =
    if Zpos n <=? 971 then S754_finite s M (Zpos n) else S754_infinity s.
Proof.
  intros HM. unfold binary_round.
  assert (Hd : Zpos (digits2_pos (Pos.iter xO M n)) = 53 + Zpos n).
  { rewrite digits2_iter_xO, HM. lia. }
  assert (Hf : fexp prec emax (Zpos (digits2_pos (Pos.iter xO M n)) + 0) = Zpos n).
  { rewrite Hd, fexp_eq. lia. }
  rewrite Hf. unfold shl_align. change (Zpos n - 0) with (Zpos n). cbv beta iota.
  unfold binary_round_aux, shr_fexp. cbn [Zdigits2]. rewrite Hf.
  change (Zpos n - 0) with (Zpos n).
  cbn [shr shr_record_of_loc]. rewrite shr_zero_bits.
  cbn [shr_m loc_of_shr_record round_nearest_even].
  assert (H0 : fexp prec emax (Zdigits2 (Zpos M) + (0 + Zpos n)) - (0 + Zpos n) = 0).
  { cbn [Zdigits2]. rewrite HM, fexp_eq. lia. }
  rewrite H0. cbn [shr shr_m]. reflexivity.
Qed.

Lemma div_eucl_eq (a b : Z) : Z.div_eucl a b = (a / b, a mod b).
Proof. unfold Z.div, Z.modulo. destruct (Z.div_eucl a b). reflexivity. Qed.

(** Multiplying a normal number by 0.5 lowers its exponent. *)
Lemma SFmul_half (s : bool) (M : positive) (E : Z) :
  digits2_pos M = 53%positive -> -1073 <= E <= 972 ->
  SFmul prec emax (S754_finite s M E) (decimal 1 2) = S754_finite s M (E - 1).
Proof.
  intros HM HE. rewrite half_eq.
  unfold SFmul. rewrite xorb_false_r, Pos.mul_comm.
  change (4503599627370496 * M)%positive with (Pos.iter xO M 52).
  assert (H52 : fexp prec emax (Zdigits2 (Zpos (Pos.iter xO M 52)) + (E + -53)) - (E + -53) = 52).
  { cbn [Zdigits2]. rewrite digits2_iter_xO, HM, fexp_eq. lia. }
  unfold binary_round_aux, shr_fexp. rewrite H52.
  cbn [shr shr_record_of_loc]. rewrite shr_zero_bits.
  cbn [shr_m loc_of_shr_record round_nearest_even].
  assert (H0 : fexp prec emax (Zdigits2 (Zpos M) + (E + -53 + 52)) - (E + -53 + 52) = 0).
  { cbn [Zdigits2]. rewrite HM, fexp_eq. lia. }
  rewrite H0. cbn [shr shr_m].
  destruct (Z.leb_spec (E + -53 + 52) (emax - prec)) as [_|H].
  - f_equal. lia.
  - unfold emax, prec in H. lia.
Qed.

(** Dividing a binary64 number by 0.5 doubles it: the exponent of a normal
    number goes up by one, the mantissa of a subnormal one is doubled. *)
Lemma SFdiv_half_core (s : bool) (M : positive) (E : Z) :
  canonical_mantissa prec emax M E = true ->
  SFdiv prec emax (S754_finite s M E) (decimal 1 2) =
    binary_round_aux prec emax s (Zpos M~0) E loc_Exact.
Proof.
  intros HM. rewrite half_eq.
  unfold canonical_mantissa in HM. apply Z.eqb_eq in HM. rewrite fexp_eq in HM.
  unfold SFdiv, SFdiv_core_binary. rewrite xorb_false_r.
  cbn [Zdigits2].
  change (Zpos (digits2_pos 4503599627370496)) with 53.
  assert (He' : Z.min (fexp prec emax (Zpos (digits2_pos M) + E - (53 + -53))) (E - -53) = E).
  { rewrite fexp_eq. lia. }
  rewrite He'.
  replace (E - -53 - E) with 53 by lia.
  rewrite Z.shiftl_mul_pow2 by lia.
  rewrite div_eucl_eq.
  replace (Zpos M * 2 ^ 53) with (Zpos M~0 * 4503599627370496) by lia.
  rewrite Z.div_mul, Z.mod_mul by lia.
  change (new_location 4503599627370496 0) with loc_Exact.
  reflexivity.
Qed.

Lemma SFdiv_half (s : bool) (M : positive) (E : Z) :
  digits2_pos M = 53%positive -> -1074 <= E ->
  SFdiv prec emax (S754_finite s M E) (decimal 1 2) =
    if E + 1 <=? 971 then S754_finite s M (E + 1) else S754_infinity s.
Proof.
  intros HM HE. rewrite SFdiv_half_core.
  2:{ unfold canonical_mantissa. apply Z.eqb_eq. rewrite HM, fexp_eq. lia. }
  assert (H1 : fexp prec emax (Zdigits2 (Zpos M~0) + E) - E = 1).
  { cbn [Zdigits2 digits2_pos]. rewrite HM, fexp_eq. cbn [Pos.succ]. lia. }
  unfold binary_round_aux, shr_fexp. rewrite H1.
  cbn [shr shr_record_of_loc iter_pos shr_1 shr_m shr_r shr_s loc_of_shr_record orb round_nearest_even].
  assert (H0 : fexp prec emax (Zdigits2 (Zpos M) + (E + 1)) - (E + 1) = 0).
  { cbn [Zdigits2]. rewrite HM, fexp_eq. lia. }
  rewrite H0. cbn [shr shr_m]. reflexivity.
Qed.

Lemma SFdiv_half_subnormal (s : bool) (M : positive) :
  Zpos (digits2_pos M) < 53 ->
  SFdiv prec emax (S754_finite s M (-1074)) (decimal 1 2) = S754_finite s M~0 (-1074).
Proof.
  intros HM. rewrite SFdiv_half_core.
  2:{ unfold canonical_mantissa. apply Z.eqb_eq. rewrite fexp_eq. lia. }
  apply binary_round_aux_subnormal. cbn [digits2_pos]. lia.
Qed.

Lemma shiftl_neg_exact (x : Z) (e : Z) :
  e <= 0 -> Z.shiftl (x * 2 ^ (- e)) e = x.
Proof.
  intros He. rewrite Z.shiftl_div_pow2 by lia.
  apply Z.div_mul. apply Z.pow_nonzero; lia.
Qed.

Lemma shiftl_neg_bound (x : Z) (e : Z) :
  e <= 0 -> Z.abs (Z.shiftl x e) <= Z.abs x.
Proof.
  intros He. rewrite Z.shiftl_div_pow2 by lia.
  assert (Hp : 0 < 2 ^ (- e)) by (apply Z.pow_pos_nonneg; lia).
  set (P := 2 ^ (- e)) in *.
  pose proof (Z.div_mod x P ltac:(lia)) as Hd.
  pose proof (Z.mod_pos_bound x P Hp) as Hm.
  set (d := x / P) in *. nia.
Qed.

Lemma pow2_split (a b : Z) : 0 <= a -> 0 <= b -> 2 ^ (a + b) = 2 ^ a * 2 ^ b.
Proof. intros. apply Z.pow_add_r; lia. Qed.

Lemma cond_Zopp_mul (s : bool) (a b : Z) : cond_Zopp s a * b = cond_Zopp s (a * b).
Proof. destruct s; cbn [cond_Zopp]; lia. Qed.

Lemma float_of_int_small (k : Z) (y : float) :
  Z.abs k < 2 ^ 53 -> float_of_int k = Ok y -> holds_exactly k y.
Proof.
  intros Hk Hy. unfold float_of_int, binary_normalize in Hy.
  destruct k as [|a|a].
  - injection Hy as <-. split; [reflexivity | split; [reflexivity | left; reflexivity]].
  - destruct (binary_round_small false a) as (M & E & HyM & HM & HE & HMa).
    { apply digits2_pos_le; lia. }
    rewrite HyM in Hy. injection Hy as <-. split; [|split].
    + cbn [math_floor cond_Zopp]. rewrite HMa, shiftl_neg_exact by lia. reflexivity.
    + cbn [scaled cond_Zopp]. rewrite HMa, <- Z.mul_assoc, <- pow2_split by lia.
      do 2 f_equal. lia.
    + right. exists false, M, E. repeat split; lia.
  - destruct (binary_round_small true a) as (M & E & HyM & HM & HE & HMa).
    { apply digits2_pos_le; lia. }
    rewrite HyM in Hy. injection Hy as <-. split; [|split].
    + cbn [math_floor cond_Zopp]. rewrite HMa, <- Z.mul_opp_l, shiftl_neg_exact by lia.
      reflexivity.
    + cbn [scaled cond_Zopp]. rewrite HMa, <- Z.mul_opp_l, <- Z.mul_assoc, <- pow2_split by lia.
      do 2 f_equal. lia.
    + right. exists true, M, E. repeat split; lia.
Qed.

Lemma cond_Zopp_abs (s : bool) (m : positive) : Z.abs (cond_Zopp s (Zpos m)) = Zpos m.
Proof. destruct s; cbn; lia. Qed.

Lemma float_of_int_big (s : bool) (M : positive) (E : Z) (y : float) :
  digits2_pos M = 53%positive -> 1 <= E <= 971 ->
  float_of_int (Z.shiftl (cond_Zopp s (Zpos M)) E) = Ok y ->
  holds_exactly (Z.shiftl (cond_Zopp s (Zpos M)) E) y.
Proof.
  intros HM HE Hy. destruct E as [|n|n]; try lia.
  assert (Hk : Z.shiftl (cond_Zopp s (Zpos M)) (Zpos n) = cond_Zopp s (Zpos (Pos.iter xO M n))).
  { rewrite Z.shiftl_mul_pow2, Zpos_iter_xO by lia. destruct s; cbn [cond_Zopp]; lia. }
  assert (Hyq : y = S754_finite s M (Zpos n)).
  { rewrite Hk in Hy. unfold float_of_int, binary_normalize in Hy.
    destruct s; cbn [cond_Zopp] in Hy; rewrite ?Pos2Z.opp_pos in Hy;
      rewrite binary_round_big in Hy by exact HM;
      destruct (Z.leb_spec (Zpos n) 971); try lia; congruence. }
  subst y. split; [reflexivity|]. split.
  - cbn [scaled]. rewrite Z.shiftl_mul_pow2 by lia.
    rewrite pow2_split by lia. lia.
  - right. exists s, M, (Zpos n). repeat split; lia.
Qed.

(** [math_floor] of a number that is a multiple of [2^-1074]. *)
Lemma math_floor_scaled (s : bool) (M : positive) (E : Z) :
  -1074 <= E ->
  let k := Z.shiftl (cond_Zopp s (Zpos M)) E in
  k * 2 ^ 1074 <= scaled (S754_finite s M E) < (k + 1) * 2 ^ 1074.
Proof.
  intros HE k. subst k. cbn [scaled].
  destruct (Z.le_gt_cases 0 E) as [Hpos|Hneg].
  - rewrite Z.shiftl_mul_pow2 by lia. rewrite (pow2_split E 1074) by lia.
    assert (0 < 2 ^ 1074) by (apply Z.pow_pos_nonneg; lia). nia.
  - rewrite Z.shiftl_div_pow2 by lia.
    assert (Hp : 0 < 2 ^ (- E)) by (apply Z.pow_pos_nonneg; lia).
    assert (Hq : 0 < 2 ^ (E + 1074)) by (apply Z.pow_pos_nonneg; lia).
    assert (Hs : 2 ^ 1074 = 2 ^ (- E) * 2 ^ (E + 1074)).
    { rewrite <- pow2_split by lia. f_equal. lia. }
    rewrite Hs.
    set (P := 2 ^ (- E)) in *. set (Q := 2 ^ (E + 1074)) in *.
    set (a := cond_Zopp s (Zpos M)).
    pose proof (Z.div_mod a P ltac:(lia)) as Hd.
    pose proof (Z.mod_pos_bound a P Hp) as Hm.
    set (d := a / P) in *. set (r := a mod P) in *. nia.
Qed.

(** *** Comparison of binary64 numbers and their exact values *)

Lemma canonical_digits (M : positive) (E : Z) :
  canonical_mantissa prec emax M E = true ->
  -1074 <= E /\ Zpos M < 2 ^ 53 /\ (-1074 < E -> 2 ^ 52 <= Zpos M).
Proof.
  unfold canonical_mantissa. intros H. apply Z.eqb_eq in H. rewrite fexp_eq in H.
  assert (HE : -1074 <= E) by lia.
  assert (Hd : Zpos (digits2_pos M) <= 53) by lia.
  assert (Hn : -1074 < E -> Zpos (digits2_pos M) = 53) by lia.
  pose proof (digits2_pos_bounds M) as [Hlo Hup].
  split; [exact HE|]. split.
  - assert (2 ^ Zpos (digits2_pos M) <= 2 ^ 53) by (apply Z.pow_le_mono_r; lia).
    eapply Z.lt_le_trans; eassumption.
  - intros HE'. rewrite (Hn HE') in Hlo. exact Hlo.
Qed.

Lemma scaled_lt_exp (m1 m2 : positive) (e1 e2 : Z) :
  canonical_mantissa prec emax m1 e1 = true ->
  canonical_mantissa prec emax m2 e2 = true ->
  e1 < e2 ->
  Zpos m1 * 2 ^ (e1 + 1074) < Zpos m2 * 2 ^ (e2 + 1074).
Proof.
  intros H1 H2 Hlt.
  apply canonical_digits in H1 as (He1 & Hm1 & _).
  apply canonical_digits in H2 as (He2 & _ & Hm2). specialize (Hm2 ltac:(lia)).
  replace (e2 + 1074) with ((e2 - e1) + (e1 + 1074)) by lia.
  rewrite (pow2_split (e2 - e1) (e1 + 1074)) by lia.
  assert (Ha : 0 < 2 ^ (e1 + 1074)) by (apply Z.pow_pos_nonneg; lia).
  assert (Ht : 2 ^ 1 <= 2 ^ (e2 - e1)) by (apply Z.pow_le_mono_r; lia).
  change (2 ^ 1) with 2 in Ht.
  change (2 ^ 53) with (2 * 4503599627370496) in Hm1.
  change (2 ^ 52) with 4503599627370496 in Hm2.
  set (A := 2 ^ (e1 + 1074)) in *. set (T := 2 ^ (e2 - e1)) in *.
  rewrite Z.mul_assoc.
  apply Z.lt_le_trans with (2 * 4503599627370496 * A).
  - apply Z.mul_lt_mono_pos_r; lia.
  - apply Z.mul_le_mono_nonneg_r; [lia | nia].
Qed.

(** On binary64 numbers the float comparison is the comparison of the
    exact values. *)
Lemma SFcompare_scaled (x y : float) :
  valid_binary prec emax x = true -> valid_binary prec emax y = true ->
  is_finite x = true -> is_finite y = true ->
  SFcompare x y = Some (scaled x ?= scaled y).
Proof.
  intros Hx Hy Fx Fy.
  destruct x as [sx|sx| |sx mx ex]; try discriminate;
    destruct y as [sy|sy| |sy my ey]; try discriminate; cbn [SFcompare scaled].
  - reflexivity.
  - cbn [valid_binary] in Hy. apply andb_prop in Hy as [Hy _].
    apply canonical_digits in Hy as (He & _ & _).
    assert (0 < Zpos my * 2 ^ (ey + 1074)) by (apply Z.mul_pos_pos; [lia | apply Z.pow_pos_nonneg; lia]).
    f_equal. symmetry. destruct sy; cbn [cond_Zopp].
    + apply Z.compare_gt_iff. rewrite Z.mul_opp_l. lia.
    + apply Z.compare_lt_iff. lia.
  - cbn [valid_binary] in Hx. apply andb_prop in Hx as [Hx _].
    apply canonical_digits in Hx as (He & _ & _).
    assert (0 < Zpos mx * 2 ^ (ex + 1074)) by (apply Z.mul_pos_pos; [lia | apply Z.pow_pos_nonneg; lia]).
    f_equal. symmetry. destruct sx; cbn [cond_Zopp].
    + apply Z.compare_lt_iff. rewrite Z.mul_opp_l. lia.
    + apply Z.compare_gt_iff. lia.
  - cbn [valid_binary] in Hx, Hy.
    apply andb_prop in Hx as [Hx _]. apply andb_prop in Hy as [Hy _].
    pose proof (canonical_digits _ _ Hx) as (Hex & _ & _).
    pose proof (canonical_digits _ _ Hy) as (Hey & _ & _).
    assert (Px : 0 < Zpos mx * 2 ^ (ex + 1074)) by (apply Z.mul_pos_pos; [lia | apply Z.pow_pos_nonneg; lia]).
    assert (Py : 0 < Zpos my * 2 ^ (ey + 1074)) by (apply Z.mul_pos_pos; [lia | apply Z.pow_pos_nonneg; lia]).
    assert (Hcmp : match ex ?= ey with
                   | Lt => Lt | Gt => Gt | Eq => Pos.compare_cont Eq mx my end
                   = (Zpos mx * 2 ^ (ex + 1074) ?= Zpos my * 2 ^ (ey + 1074))).
    { symmetry. destruct (Z.compare_spec ex ey) as [Heq|Hlt|Hgt].
      - subst ey. change (Pos.compare_cont Eq mx my) with (Zpos mx ?= Zpos my).
        symmetry. apply Zmult_compare_compat_r. apply Z.lt_gt. apply Z.pow_pos_nonneg; lia.
      - apply Z.compare_lt_iff. apply scaled_lt_exp; assumption.
      - apply Z.compare_gt_iff. apply scaled_lt_exp; assumption. }
    f_equal. destruct sx, sy; cbn [cond_Zopp]; rewrite ?Z.mul_opp_l.
    + rewrite Z.compare_opp,
        (Z.compare_antisym (Zpos mx * 2 ^ (ex + 1074)) (Zpos my * 2 ^ (ey + 1074))), <- Hcmp.
      destruct (ex ?= ey); reflexivity.
    + symmetry. apply Z.compare_lt_iff. lia.
    + symmetry. apply Z.compare_gt_iff. lia.
    + exact Hcmp.
Qed.

(** With the tick 0.5, the tick count [k] of a binary64 price [p] has
    [k/2 <= p < (k+1)/2], and its float holds it exactly. *)
Lemma tick_count_half_exact (p : float) (k : Z) (y : float) :
  valid_binary prec emax p = true ->
  math_floor (SFdiv prec emax p (decimal 1 2)) = Ok k ->
  float_of_int k = Ok y ->
  is_finite p = true /\ holds_exactly k y /\
  k * 2 ^ 1074 <= 2 * scaled p < (k + 1) * 2 ^ 1074.
Proof.
  intros Hv Hk Hy.
  destruct p as [s|s| |s M E];
    try (rewrite half_eq in Hk; cbn in Hk; discriminate);
    (split; [reflexivity|]).
  - rewrite half_eq in Hk. cbn in Hk. injection Hk as <-. split.
    + apply float_of_int_small; [cbn; lia | exact Hy].
    + cbn [scaled]. assert (0 < 2 ^ 1074) by (apply Z.pow_pos_nonneg; lia). lia.
  - cbn [valid_binary] in Hv. unfold bounded in Hv.
    apply andb_prop in Hv as [Hc Hb].
    pose proof Hc as Hc'. unfold canonical_mantissa in Hc'.
    apply Z.eqb_eq in Hc'. rewrite fexp_eq in Hc'.
    apply Z.leb_le in Hb. change (emax - prec) with 971 in Hb.
    destruct (Z.eq_dec (Zpos (digits2_pos M)) 53) as [Hd|Hd].
    + assert (HM : digits2_pos M = 53%positive) by lia.
      rewrite SFdiv_half in Hk by (try exact HM; lia).
      destruct (Z.leb_spec (E + 1) 971) as [HE1|HE1]; [|discriminate].
      cbn [math_floor] in Hk. injection Hk as <-. split.
      * destruct (Z.le_gt_cases 1 (E + 1)) as [Hpos|Hneg].
        -- apply float_of_int_big; [exact HM | lia | exact Hy].
        -- apply float_of_int_small; [|exact Hy].
           pose proof (shiftl_neg_bound (cond_Zopp s (Zpos M)) (E + 1) ltac:(lia)) as Hbd.
           rewrite cond_Zopp_abs in Hbd.
           pose proof (digits2_pos_bounds M) as [_ Hup]. rewrite Hd in Hup. lia.
      * pose proof (math_floor_scaled s M (E + 1) ltac:(lia)) as Hfl.
        cbn zeta in Hfl. cbn [scaled] in Hfl |- *.
        replace (E + 1 + 1074) with (1 + (E + 1074)) in Hfl by lia.
        rewrite (pow2_split 1 (E + 1074)) in Hfl by lia.
        change (2 ^ 1) with 2 in Hfl. lia.
    + assert (HE : E = -1074) by lia. subst E.
      rewrite SFdiv_half_subnormal in Hk by lia.
      cbn [math_floor] in Hk. injection Hk as <-. split.
      * apply float_of_int_small; [|exact Hy].
        pose proof (shiftl_neg_bound (cond_Zopp s (Zpos M~0)) (-1074) ltac:(lia)) as Hbd.
        rewrite cond_Zopp_abs in Hbd.
        pose proof (digits2_pos_bounds M~0) as [_ Hup]. cbn [digits2_pos] in Hup.
        assert (Hle : Zpos (Pos.succ (digits2_pos M)) <= 53) by lia.
        assert (2 ^ Zpos (Pos.succ (digits2_pos M)) <= 2 ^ 53) by (apply Z.pow_le_mono_r; lia).
        lia.
      * pose proof (math_floor_scaled s M~0 (-1074) ltac:(lia)) as Hfl.
        cbn zeta in Hfl. cbn [scaled] in Hfl |- *.
        change (-1074 + 1074) with 0 in Hfl |- *. change (2 ^ 0) with 1 in Hfl |- *.
        destruct s; cbn [cond_Zopp] in Hfl |- *; lia.
Qed.

(** A price [y * 0.5], for [y] holding a tick count exactly, is half of
    [y] and rounds to itself. *)
Lemma round_to_tick_of_exact (c : LimitChaser) (k : Z) (y : float) :
  tick_size c = decimal 1 2 ->
  float_of_int k = Ok y -> holds_exactly k y ->
  _round_to_tick c (float_mul y (decimal 1 2)) = Ok (float_mul y (decimal 1 2)) /\
  scaled (float_mul y (decimal 1 2)) = k * 2 ^ 1073 /\
  valid_binary prec emax (float_mul y (decimal 1 2)) = true /\
  is_finite (float_mul y (decimal 1 2)) = true.
Proof.
  intros Ht Hy (Hfl & Hval & Hshape).
  assert (Hq : SFdiv prec emax (float_mul y (decimal 1 2)) (decimal 1 2) = y /\
               2 * scaled (float_mul y (decimal 1 2)) = scaled y /\
               valid_binary prec emax (float_mul y (decimal 1 2)) = true /\
               is_finite (float_mul y (decimal 1 2)) = true).
  { destruct Hshape as [->|(s & M & E & -> & HM & HE)].
    - vm_compute. auto.
    - unfold float_mul. rewrite SFmul_half by (try exact HM; lia).
      rewrite SFdiv_half by (try exact HM; lia).
      replace (E - 1 + 1) with E by lia. split; [|split; [|split; [|reflexivity]]].
      + destruct (Z.leb_spec E 971); [reflexivity | lia].
      + cbn [scaled]. replace (E + 1074) with (1 + (E - 1 + 1074)) by lia.
        rewrite (pow2_split 1 (E - 1 + 1074)) by lia. change (2 ^ 1) with 2. lia.
      + cbn [valid_binary]. unfold bounded, canonical_mantissa.
        rewrite HM, fexp_eq. apply andb_true_intro. split.
        * apply Z.eqb_eq. lia.
        * apply Z.leb_le. change (emax - prec) with 971. lia. }
  destruct Hq as (Hq & Hhalf & Hvalid & Hfin). split; [|split; [|split; [|exact Hfin]]].
  - rewrite round_to_tick_unfold. unfold tick_count, float_div. rewrite Ht.
    change (is_zero (decimal 1 2)) with false. cbn [mbind Res_bind res_bind].
    rewrite Hq, Hfl. cbn [mbind Res_bind res_bind]. rewrite Hy. reflexivity.
  - rewrite Hval in Hhalf. change 1074 with (1 + 1073) in Hhalf.
    rewrite (pow2_split 1 1073) in Hhalf by lia. change (2 ^ 1) with 2 in Hhalf. lia.
  - exact Hvalid.
Qed.

Lemma scaled_half : scaled (decimal 1 2) = 2 ^ 1073.
Proof. rewrite half_eq. cbn [scaled cond_Zopp]. reflexivity. Qed.

Lemma float_ge_scaled (x y : float) :
  valid_binary prec emax x = true -> valid_binary prec emax y = true ->
  is_finite x = true -> is_finite y = true ->
  scaled y <= scaled x -> float_ge x y = true.
Proof.
  intros Hx Hy Fx Fy Hle. unfold float_ge, SFleb.
  rewrite (SFcompare_scaled y x Hy Hx Fy Fx).
  destruct (Z.compare_spec (scaled y) (scaled x)); [reflexivity | reflexivity | lia].
Qed.

(** C6, amended: with the tick 0.5 of the scripts, on every binary64
    price [p] for which [_round_to_tick] returns [r], no step rounds: [r]
    is exactly [k * 0.5] for the tick count [k = floor(p / 0.5)], it is
    the largest such multiple not above the price ([r <= p < r + 0.5] as
    real numbers, and [r <= p] as Python compares floats), and rounding
    [r] again gives [r]. *)
Theorem round_to_tick_exact_at_half_tick (c : LimitChaser) (p r : float) :
  tick_size c = decimal 1 2 ->
  valid_binary prec emax p = true ->
  _round_to_tick c p = Ok r ->
  (exists k, tick_count c p = Ok k /\
             scaled r = k * scaled (tick_size c) /\
             scaled r <= scaled p < scaled r + scaled (tick_size c)) /\
  float_ge p r = true /\
  _round_to_tick c r = Ok r.
Proof.
  intros Ht Hv Hr. rewrite round_to_tick_unfold in Hr.
  unfold tick_count, float_div in Hr |- *. rewrite Ht in Hr |- *.
  change (is_zero (decimal 1 2)) with false in Hr |- *.
  cbn [mbind Res_bind res_bind] in Hr |- *.
  destruct (math_floor (SFdiv prec emax p (decimal 1 2))) as [k|] eqn:Hk; [|discriminate].
  cbn [mbind Res_bind res_bind] in Hr.
  destruct (float_of_int k) as [y|] eqn:Hy; [|discriminate].
  cbn [mbind Res_bind res_bind] in Hr. injection Hr as <-.
  destruct (tick_count_half_exact p k y Hv Hk Hy) as (Hfp & Hex & Hbounds).
  destruct (round_to_tick_of_exact c k y Ht Hy Hex) as (Hidem & Hsc & Hvr & Hfr).
  change 1074 with (1 + 1073) in Hbounds.
  rewrite (pow2_split 1 1073) in Hbounds by lia. change (2 ^ 1) with 2 in Hbounds.
  split; [|split; [|exact Hidem]].
  - exists k. rewrite scaled_half, Hsc. split; [reflexivity|]. split; [reflexivity|]. lia.
  - apply float_ge_scaled; try assumption. rewrite Hsc. lia.
Qed.

Lemma round_to_tick_exact_at_half_tick_witness :
  tick_size usage_chaser = decimal 1 2 /\
  valid_binary prec emax (decimal 1003 10) = true /\
  _round_to_tick usage_chaser (decimal 1003 10) = Ok (decimal 100 1) /\
  float_ge (decimal 1003 10) (decimal 100 1) = true /\
  _round_to_tick usage_chaser (decimal 100 1) = Ok (decimal 100 1).
Proof.
  split; [vm_compute; reflexivity|].
  split; [vm_compute; reflexivity|].
  split; [vm_compute; reflexivity|].
  apply (round_to_tick_exact_at_half_tick usage_chaser (decimal 1003 10) (decimal 100 1));
    vm_compute; reflexivity.
Defined.

(** With the configured tick of 0.5 the second rounding changes nothing
    on the grid of prices 0.1, 0.2, ..., 300.0. *)
Example round_to_tick_idempotent_on_grid :
  forallb (fun n =>
             match _round_to_tick usage_chaser (decimal n 10) with
             | Ok r => match _round_to_tick usage_chaser r with
                       | Ok r' => SFeqb r' r
                       | Raise _ => false
                       end
             | Raise _ => false
             end)
          (map Z.of_nat (seq 1 3000)) = true.
Proof. vm_compute. reflexivity. Qed.

(** ** Dispatcher throttling *)

(** A quote inside the window is dropped: the loop goes on as if it had
    not been delivered. *)
Lemma consumer_drops {S : Type} (engine : Quote -> S -> Res (option string) * S)
    (quote : Quote) (rest : list Quote) (last_check : Z) (s : S) :
  ts_ms quote - last_check < REFRESH_INTERVAL_MS ->
  consumer engine (quote :: rest) last_check s = consumer engine rest last_check s.
Proof.
  intros H. cbn [consumer].
  destruct (Z.ltb_spec (ts_ms quote - last_check) REFRESH_INTERVAL_MS); [reflexivity|lia].
Qed.

(** A quote outside the window goes to the engine, and [last_check]
    becomes its timestamp unless the engine raises. *)
Lemma consumer_dispatches {S : Type} (engine : Quote -> S -> Res (option string) * S)
    (quote : Quote) (rest : list Quote) (last_check : Z) (s : S) :
  REFRESH_INTERVAL_MS <= ts_ms quote - last_check ->
  consumer engine (quote :: rest) last_check s =
    match engine quote s with
    | (Raise e, s') => (Propagated e, last_check, s')
    | (Ok out, s') =>
        match is_terminal out with
        | Some o => (Returned o, ts_ms quote, s')
        | None => consumer engine rest (ts_ms quote) s'
        end
    end.
Proof.
  intros H. cbn [consumer].
  destruct (Z.ltb_spec (ts_ms quote - last_check) REFRESH_INTERVAL_MS); [lia|reflexivity].
Qed.


(** C1, as stated, fails: [last_check] starts at 0, so the quote stamped 0
    is itself inside the first window ([0 - 0 < 500]) and is dropped; of
    [0, 100, 400, 600] only 600 reaches the engine. *)
Lemma throttle_drops_quote_at_zero :
  let quotes := map (fun ts => quote_at ts (decimal 1003 10) (decimal 1004 10))
                    [0; 100; 400; 600] in
  let engine := recording (on_quote (LiveExchangeClient paper_executor COIN)) in
  let '(exit, last_check, (seen, env)) :=
    consumer engine quotes 0 ([], Build_Env usage_chaser [] (paper [Some 7] [])) in
  map ts_ms seen = [600] /\ map ts_ms seen <> [0; 600] /\
  exit = Suspended /\ last_check = 600 /\
  sent (venue env) = [SentOrder COIN true ORDER_SIZE (decimal 100 1)].
Proof. vm_compute. repeat split; discriminate. Qed.

(** C1, amended: fed quotes stamped [0, 100, 400, 600] with
    [last_check = 0] and a 500 ms interval, the loop hands exactly the
    quote stamped 600 to the engine; the three others are dropped without
    an engine call and leave the state as it was. *)
Theorem throttle_example {S : Type}
    (engine : Quote -> S -> Res (option string) * S) (s : S)
    (q0 q1 q2 q3 : Quote) :
  ts_ms q0 = 0 -> ts_ms q1 = 100 -> ts_ms q2 = 400 -> ts_ms q3 = 600 ->
  consumer (recording engine) [q0; q1; q2; q3] 0 ([], s) =
    match engine q3 s with
    | (Ok out, s') =>
        (match is_terminal out with Some o => Returned o | None => Suspended end,
         600, ([q3], s'))
    | (Raise e, s') => (Propagated e, 0, ([q3], s'))
    end.
Proof.
  intros H0 H1 H2 H3. cbn [consumer].
  rewrite H0, H1, H2, H3. cbn.
  unfold recording. cbn.
  destruct (engine q3 s) as [[out|e] s']; [|reflexivity].
  destruct (is_terminal out); reflexivity.
Qed.

Lemma throttle_example_witness :
  fst (consumer (recording (on_quote live))
         [quote_at 0 (decimal 1003 10) (decimal 1004 10);
          quote_at 100 (decimal 1003 10) (decimal 1004 10);
          quote_at 400 (decimal 1003 10) (decimal 1004 10);
          quote_at 600 (decimal 1003 10) (decimal 1004 10)]
         0 ([], Build_Env usage_chaser [] (paper [Some 7] [])))
  = (Suspended, 600).
Proof.
  rewrite (throttle_example (on_quote live)
             (Build_Env usage_chaser [] (paper [Some 7] []))
             (quote_at 0 (decimal 1003 10) (decimal 1004 10))
             (quote_at 100 (decimal 1003 10) (decimal 1004 10))
             (quote_at 400 (decimal 1003 10) (decimal 1004 10))
             (quote_at 600 (decimal 1003 10) (decimal 1004 10)));
    vm_compute; reflexivity.
Defined.

(** ** One step of the engine, branch by branch *)

Lemma on_quote_idle {V} (ex : ExchangeClient V) (c : LimitChaser) (q : Quote)
    (log : list Call) (v v1 : V) (tgt : float) (r : option string) :
  order_id c = None ->
  _round_to_tick c (quoted_px c q) = Ok tgt ->
  place_limit ex (side c) tgt (order_size c) (post_only c) "GTC" v = (Ok r, v1) ->
  on_quote ex q (Build_Env c log v) =
    (Ok None,
     Build_Env
       (with_placed_ts (Some (ts_ms q))
          (with_order_id r (with_order_px (Some tgt) (with_start_px (Some tgt) c))))
       (log ++ [CallPlaceLimit (side c) tgt (order_size c) (post_only c) "GTC"])
       v1).
Proof.
  intros Hid Htgt Hplace. engine. use Htgt. use Hid. use Hplace. reflexivity.
Qed.

Lemma on_quote_abort {V} (ex : ExchangeClient V) (c : LimitChaser) (q : Quote)
    (log : list Call) (v v1 v2 : V) (oid : string) (opx spx tgt drift total : float)
    (pts : Z) :
  order_id c = Some oid -> order_px c = Some opx ->
  start_px c = Some spx -> placed_ts c = Some pts ->
  _round_to_tick c (quoted_px c q) = Ok tgt ->
  poll_fill ex oid v = (Ok false, v1) ->
  ticks_between c tgt opx = Ok drift ->
  ticks_between c tgt spx = Ok total ->
  float_gt total (max_chase_ticks c) = true ->
  cancel ex oid v1 = (Ok tt, v2) ->
  on_quote ex q (Build_Env c log v) =
    (Ok (Some "aborted"),
     Build_Env (cleared c) (log ++ [CallPollFill oid; CallCancel oid]) v2).
Proof.
  intros Hid Hopx Hspx Hpts Htgt Hpoll Hdrift Htotal Habort Hcancel.
  engine. use Htgt. use Hid. use Hpoll. use Hopx. use Hdrift. use Hpts.
  use Hspx. use Htotal. use Habort. use Hcancel.
  rewrite <- app_assoc. reflexivity.
Qed.

Lemma on_quote_refresh {V} (ex : ExchangeClient V) (c : LimitChaser) (q : Quote)
    (log : list Call) (v v1 v2 v3 : V) (oid : string)
    (opx spx tgt drift total : float) (pts : Z) (r : option string) :
  order_id c = Some oid -> order_px c = Some opx ->
  start_px c = Some spx -> placed_ts c = Some pts ->
  _round_to_tick c (quoted_px c q) = Ok tgt ->
  poll_fill ex oid v = (Ok false, v1) ->
  ticks_between c tgt opx = Ok drift ->
  ticks_between c tgt spx = Ok total ->
  float_gt total (max_chase_ticks c) = false ->
  float_ge drift (tolerance_ticks c) || (max_age_ms c <=? ts_ms q - pts) = true ->
  cancel ex oid v1 = (Ok tt, v2) ->
  place_limit ex (side c) tgt (order_size c) (post_only c) "GTC" v2 = (Ok r, v3) ->
  on_quote ex q (Build_Env c log v) =
    (Ok None,
     Build_Env
       (with_placed_ts (Some (ts_ms q)) (with_order_px (Some tgt) (with_order_id r c)))
       (log ++ [CallPollFill oid; CallCancel oid;
                CallPlaceLimit (side c) tgt (order_size c) (post_only c) "GTC"])
       v3).
Proof.
  intros Hid Hopx Hspx Hpts Htgt Hpoll Hdrift Htotal Habort Hrefresh Hcancel Hplace.
  engine. use Htgt. use Hid. use Hpoll. use Hopx. use Hdrift. use Hpts.
  use Hspx. use Htotal. use Habort. use Hrefresh. use Hcancel. use Hplace.
  rewrite <- !app_assoc. reflexivity.
Qed.

(** ** Abort and refresh *)

(** C3: in the Resting state, once the fill check is negative and both
    the abort condition ([total_chase_ticks > max_chase_ticks]) and the
    refresh condition hold, [on_quote] cancels the resting order, resets
    the four fields and returns ["aborted"]; the calls of the step are the
    poll and the cancel, and no [place_limit]. *)
Theorem abort_takes_precedence {V} (ex : ExchangeClient V) (c : LimitChaser)
    (q : Quote) (log : list Call) (v v1 v2 : V) (oid : string)
    (opx spx tgt drift_ticks total_chase_ticks : float) (pts : Z) :
  order_id c = Some oid -> order_px c = Some opx ->
  start_px c = Some spx -> placed_ts c = Some pts ->
  _round_to_tick c (quoted_px c q) = Ok tgt ->
  poll_fill ex oid v = (Ok false, v1) ->
  ticks_between c tgt opx = Ok drift_ticks ->
  ticks_between c tgt spx = Ok total_chase_ticks ->
  float_gt total_chase_ticks (max_chase_ticks c) = true ->
  float_ge drift_ticks (tolerance_ticks c) || (max_age_ms c <=? ts_ms q - pts) = true ->
  cancel ex oid v1 = (Ok tt, v2) ->
  exists env' new,
    on_quote ex q (Build_Env c log v) = (Ok (Some "aborted"), env') /\
    calls env' = log ++ new /\
    new = [CallPollFill oid; CallCancel oid] /\
    places new = 0%nat /\
    venue env' = v2 /\
    self env' = cleared c /\
    is_idle (self env') = true.
Proof.
  intros Hid Hopx Hspx Hpts Htgt Hpoll Hdrift Htotal Habort _ Hcancel.
  eexists _, _. split.
  - eapply on_quote_abort; eassumption.
  - cbn. repeat split; reflexivity.
Qed.

Lemma abort_takes_precedence_witness :
  exists env',
    on_quote live (quote_at 1700 p106_0 (decimal 1065 10))
      (Build_Env (resting_at "2" p100_5 p100_0 1200) [] (paper [] []))
    = (Ok (Some "aborted"), env') /\
    calls env' = [CallPollFill "2"; CallCancel "2"] /\
    sent (venue env') = [SentQuery 2; SentCancel COIN 2].
Proof.
  destruct (abort_takes_precedence live (resting_at "2" p100_5 p100_0 1200)
              (quote_at 1700 p106_0 (decimal 1065 10)) [] (paper [] [])
              {| placements := []; filled := []; sent := [SentQuery 2] |}
              {| placements := []; filled := [];
                 sent := [SentQuery 2; SentCancel COIN 2] |}
              "2" p100_5 p100_0 p106_0 (decimal 11 1) (decimal 12 1) 1200)
    as (env' & new & Hrun & Hcalls & -> & _ & Hvenue & _);
    [vm_compute; reflexivity .. |].
  exists env'. rewrite Hcalls, Hvenue. auto.
Defined.



(** ** The calls of one step *)

Ltac branch :=
  match goal with
  | |- context [match ?x with _ => _ end] =>
      lazymatch x with
      | context [match _ with _ => _ end] => fail
      | _ => destruct x eqn:?; cbn
      end
  end.

Lemma on_quote_calls {V} (ex : ExchangeClient V) (c : LimitChaser) (q : Quote)
    (log : list Call) (v : V) :
  exists new,
    calls (snd (on_quote ex q (Build_Env c log v))) = log ++ new /\
    match order_id c with
    | None =>
        new = [] \/ exists s px sz po tif, new = [CallPlaceLimit s px sz po tif]
    | Some oid =>
        new = [] \/ new = [CallPollFill oid] \/
        new = [CallPollFill oid; CallCancel oid] \/
        exists s px sz po tif,
          new = [CallPollFill oid; CallCancel oid; CallPlaceLimit s px sz po tif]
    end.
Proof.
  engine. repeat branch;
    rewrite <- ?app_assoc; cbn [app];
    first [ exists []; split; [symmetry; apply app_nil_r | auto; fail]
          | eexists; split; [reflexivity | eauto 12] ].
Qed.

Lemma guarded_shapes (resting : option string) (new : list Call) :
  match resting with
  | None =>
      new = [] \/ exists s px sz po tif, new = [CallPlaceLimit s px sz po tif]
  | Some oid =>
      new = [] \/ new = [CallPollFill oid] \/
      new = [CallPollFill oid; CallCancel oid] \/
      exists s px sz po tif,
        new = [CallPollFill oid; CallCancel oid; CallPlaceLimit s px sz po tif]
  end ->
  placed_idle_or_after_cancel resting new /\ (places new <= 1)%nat.
Proof.
  intros Hshape. split.
  - intros pre call post Hnew Hplace.
    destruct resting as [oid|]; [|exact I].
    destruct Hshape as [-> | [-> | [-> | (s & px & sz & po & tif & ->)]]];
      destruct pre as [|c1 [|c2 [|c3 [|c4 pre]]]];
      simplify_eq/=; auto.
  - destruct resting as [oid|].
    + destruct Hshape as [-> | [-> | [-> | (s & px & sz & po & tif & ->)]]];
        cbn; lia.
    + destruct Hshape as [-> | (s & px & sz & po & tif & ->)]; cbn; lia.
Qed.

(** C7: in every call of [on_quote], whatever the gateway answers,
    [place_limit] is called only if no order was resting when the call
    began, or after [cancel] was called on the resting order earlier in
    the same call; and at most one order is placed per call. *)
Theorem place_only_idle_or_after_cancel {V} (ex : ExchangeClient V)
    (c : LimitChaser) (q : Quote) (log : list Call) (v : V) :
  exists new,
    calls (snd (on_quote ex q (Build_Env c log v))) = log ++ new /\
    placed_idle_or_after_cancel (order_id c) new /\
    (places new <= 1)%nat.
Proof.
  destruct (on_quote_calls ex c q log v) as (new & Hcalls & Hshape).
  exists new. split; [exact Hcalls|]. apply guarded_shapes, Hshape.
Qed.

(** ** Consistency of the chase fields *)

(** C2, as stated, fails: from the freshly built chaser, a placement the
    venue refuses leaves [order_id = None] next to a set [order_px],
    [start_px] and [placed_ts]. *)
Lemma failed_placement_leaves_fields :
  let env0 := Build_Env usage_chaser [] (paper [None] []) in
  let out := on_quote live (quote_at 1000 (decimal 1003 10) (decimal 1004 10)) env0 in
  consistent (self env0) = true /\
  fst out = Ok None /\
  sent (venue (snd out)) = [SentOrder COIN true ORDER_SIZE p100_0] /\
  order_id (self (snd out)) = None /\
  order_px (self (snd out)) = Some p100_0 /\
  start_px (self (snd out)) = Some p100_0 /\
  placed_ts (self (snd out)) = Some 1000 /\
  consistent (self (snd out)) = false.
Proof. vm_compute. repeat split; reflexivity. Qed.

Lemma init_is_idle (tick_size : float) (side : string) (order_size : float)
    (post_only : bool) (tolerance_ticks : float) (max_age_ms : Z)
    (max_chase_ticks : float) :
  is_idle (LimitChaser_init tick_size side order_size post_only tolerance_ticks
             max_age_ms max_chase_ticks) = true.
Proof. reflexivity. Qed.

Lemma need_Ok {A} (x : option A) (a : A) : need x = Ok a -> x = Some a.
Proof. destruct x; cbn; congruence. Qed.

Ltac fields :=
  repeat match goal with
         | H : need _ = Ok _ |- _ => apply need_Ok in H
         end;
  unfold coherent, is_resting, is_idle, cleared in *; cbn in *;
  repeat match goal with
         | H : ?x = _ |- context [match ?x with _ => _ end] => rewrite H
         | H : ?x = _, H' : context [match ?x with _ => _ end] |- _ => rewrite H in H'
         end.

(** C2, amended: between two calls of [on_quote], whatever the gateway
    answered and whether the call returned or raised, either [order_id] is
    [None] (Idle) or all four fields are set (Resting); after a fill or an
    abort all four are [None]; after a first placement that fails
    ([place_limit] returns [None]) [order_id] is [None] while [order_px],
    [start_px] and [placed_ts] keep what the step wrote. *)
Theorem chase_fields_coherent {V} (ex : ExchangeClient V) (c : LimitChaser)
    (q : Quote) (log : list Call) (v : V) :
  coherent c = true ->
  exists r env',
    on_quote ex q (Build_Env c log v) = (r, env') /\
    coherent (self env') = true /\
    (r = Ok (Some "filled") \/ r = Ok (Some "aborted") -> is_idle (self env') = true) /\
    (forall tgt v1,
       order_id c = None ->
       _round_to_tick c (quoted_px c q) = Ok tgt ->
       place_limit ex (side c) tgt (order_size c) (post_only c) "GTC" v = (Ok None, v1) ->
       r = Ok None /\ order_id (self env') = None /\
       order_px (self env') = Some tgt /\ start_px (self env') = Some tgt /\
       placed_ts (self env') = Some (ts_ms q)).
Proof.
  intros Hc.
  destruct (on_quote ex q (Build_Env c log v)) as [r env'] eqn:Hrun.
  exists r, env'. split; [reflexivity|].
  split; [|split].
  - revert Hrun. engine. repeat branch; intros [= <- <-]; cbn; fields;
      try reflexivity; try assumption; try discriminate.
    all: repeat match goal with
                | |- context [match ?x with _ => _ end] => destruct x
                end; congruence.
  - revert Hrun. engine. repeat branch; intros [= <- <-]; cbn;
      intros [?|?]; try discriminate; reflexivity.
  - intros tgt v1 Hid Htgt Hplace.
    rewrite (on_quote_idle ex c q log v v1 tgt None Hid Htgt Hplace) in Hrun.
    injection Hrun as <- <-. cbn. auto.
Qed.

Lemma chase_fields_coherent_witness :
  exists r env',
    on_quote live (quote_at 1700 p106_0 (decimal 1065 10))
      (Build_Env (resting_at "2" p100_5 p100_0 1200) [] (paper [] [])) = (r, env') /\
    coherent (self env') = true.
Proof.
  destruct (chase_fields_coherent live (resting_at "2" p100_5 p100_0 1200)
              (quote_at 1700 p106_0 (decimal 1065 10)) [] (paper [] []))
    as (r & env' & Hrun & Hco & _).
  - vm_compute. reflexivity.
  - exists r, env'. auto.
Defined.

(** ** A re-placement that fails *)



(** ** The scenario of the specification *)

(** C4: with [tick_size = 0.5], side buy, tolerance 1 tick, max age
    5000 ms and max chase 10 ticks, from Idle: a bid of 100.3 places at
    100.0 with [start_px = order_px = 100.0]; 200 ms later a bid of 100.7
    gives target 100.5 and a drift of 1 tick, so the order is cancelled and
    placed again at 100.5 while [start_px] stays 100.0; then a bid of 106.0
    gives 12 ticks from the start, more than 10, so the order is cancelled
    and the step returns ["aborted"]. Neither order is filled. *)
Theorem chase_scenario (t0 t3 : Z) (ask1 ask2 ask3 : float) :
  let q1 := quote_at t0 (decimal 1003 10) ask1 in
  let q2 := quote_at (t0 + 200) (decimal 1007 10) ask2 in
  let q3 := quote_at t3 p106_0 ask3 in
  let env0 := Build_Env usage_chaser [] (paper [Some 1; Some 2] []) in
  let env1 := snd (on_quote live q1 env0) in
  let env2 := snd (on_quote live q2 env1) in
  let env3 := snd (on_quote live q3 env2) in
  is_idle (self env0) = true /\
  (* first quote *)
  fst (on_quote live q1 env0) = Ok None /\
  calls env1 = [CallPlaceLimit "buy" p100_0 ORDER_SIZE true "GTC"] /\
  order_id (self env1) = Some "1" /\
  order_px (self env1) = Some p100_0 /\
  start_px (self env1) = Some p100_0 /\
  placed_ts (self env1) = Some t0 /\
  (* second quote *)
  _round_to_tick (self env1) (quoted_px (self env1) q2) = Ok p100_5 /\
  ticks_between (self env1) p100_5 p100_0 = Ok (decimal 1 1) /\
  float_ge (decimal 1 1) (tolerance_ticks (self env1)) = true /\
  fst (on_quote live q2 env1) = Ok None /\
  calls env2 = calls env1 ++ [CallPollFill "1"; CallCancel "1";
                              CallPlaceLimit "buy" p100_5 ORDER_SIZE true "GTC"] /\
  order_id (self env2) = Some "2" /\
  order_px (self env2) = Some p100_5 /\
  start_px (self env2) = Some p100_0 /\
  (* third quote *)
  _round_to_tick (self env2) (quoted_px (self env2) q3) = Ok p106_0 /\
  ticks_between (self env2) p106_0 p100_0 = Ok (decimal 12 1) /\
  float_gt (decimal 12 1) (max_chase_ticks (self env2)) = true /\
  fst (on_quote live q3 env2) = Ok (Some "aborted") /\
  calls env3 = calls env2 ++ [CallPollFill "2"; CallCancel "2"] /\
  is_idle (self env3) = true /\
  sent (venue env3) =
    [SentOrder COIN true ORDER_SIZE p100_0;
     SentQuery 1; SentCancel COIN 1; SentOrder COIN true ORDER_SIZE p100_5;
     SentQuery 2; SentCancel COIN 2].
Proof.
  intros q1 q2 q3 env0 env1 env2 env3.
  (* Idle: the first quote places the order *)
  assert (H1 : on_quote live q1 env0 =
    (Ok None,
     Build_Env (resting_at "1" p100_0 p100_0 t0)
       [CallPlaceLimit "buy" p100_0 ORDER_SIZE true "GTC"]
       {| placements := [Some 2]; filled := [];
          sent := [SentOrder COIN true ORDER_SIZE p100_0] |})).
  { apply (on_quote_idle live usage_chaser q1 [] (paper [Some 1; Some 2] [])
             _ p100_0 (Some "1")); vm_compute; reflexivity. }
  assert (E1 : env1 = snd (on_quote live q1 env0)) by reflexivity.
  rewrite H1 in E1. cbn [snd] in E1. clearbody env1. subst env1.
  (* Resting: one tick of drift, far from the abort distance: refresh *)
  assert (H2 : on_quote live q2
                 (Build_Env (resting_at "1" p100_0 p100_0 t0)
                    [CallPlaceLimit "buy" p100_0 ORDER_SIZE true "GTC"]
                    {| placements := [Some 2]; filled := [];
                       sent := [SentOrder COIN true ORDER_SIZE p100_0] |}) =
    (Ok None,
     Build_Env (resting_at "2" p100_5 p100_0 (t0 + 200))
       ([CallPlaceLimit "buy" p100_0 ORDER_SIZE true "GTC"] ++
        [CallPollFill "1"; CallCancel "1";
         CallPlaceLimit "buy" p100_5 ORDER_SIZE true "GTC"])
       {| placements := []; filled := [];
          sent := [SentOrder COIN true ORDER_SIZE p100_0; SentQuery 1;
                   SentCancel COIN 1; SentOrder COIN true ORDER_SIZE p100_5] |})).
  { apply (on_quote_refresh live (resting_at "1" p100_0 p100_0 t0) q2 _ _
             {| placements := [Some 2]; filled := [];
                sent := [SentOrder COIN true ORDER_SIZE p100_0; SentQuery 1] |}
             {| placements := [Some 2]; filled := [];
                sent := [SentOrder COIN true ORDER_SIZE p100_0; SentQuery 1;
                         SentCancel COIN 1] |}
             _ "1" p100_0 p100_0 p100_5 (decimal 1 1) (decimal 1 1) t0 (Some "2"));
      vm_compute; reflexivity. }
  assert (E2 : env2 = snd (on_quote live q2
                 (Build_Env (resting_at "1" p100_0 p100_0 t0)
                    [CallPlaceLimit "buy" p100_0 ORDER_SIZE true "GTC"]
                    {| placements := [Some 2]; filled := [];
                       sent := [SentOrder COIN true ORDER_SIZE p100_0] |})))
    by reflexivity.
  rewrite H2 in E2. cbn [snd] in E2. clearbody env2. subst env2.
  (* Resting: twelve ticks from the start: abort *)
  assert (H3 : on_quote live q3
                 (Build_Env (resting_at "2" p100_5 p100_0 (t0 + 200))
                    ([CallPlaceLimit "buy" p100_0 ORDER_SIZE true "GTC"] ++
                     [CallPollFill "1"; CallCancel "1";
                      CallPlaceLimit "buy" p100_5 ORDER_SIZE true "GTC"])
                    {| placements := []; filled := [];
                       sent := [SentOrder COIN true ORDER_SIZE p100_0; SentQuery 1;
                                SentCancel COIN 1;
                                SentOrder COIN true ORDER_SIZE p100_5] |}) =
    (Ok (Some "aborted"),
     Build_Env (cleared (resting_at "2" p100_5 p100_0 (t0 + 200)))
       (([CallPlaceLimit "buy" p100_0 ORDER_SIZE true "GTC"] ++
         [CallPollFill "1"; CallCancel "1";
          CallPlaceLimit "buy" p100_5 ORDER_SIZE true "GTC"]) ++
        [CallPollFill "2"; CallCancel "2"])
       {| placements := []; filled := [];
          sent := [SentOrder COIN true ORDER_SIZE p100_0; SentQuery 1;
                   SentCancel COIN 1; SentOrder COIN true ORDER_SIZE p100_5;
                   SentQuery 2; SentCancel COIN 2] |})).
  { apply (on_quote_abort live (resting_at "2" p100_5 p100_0 (t0 + 200)) q3 _ _
             {| placements := []; filled := [];
                sent := [SentOrder COIN true ORDER_SIZE p100_0; SentQuery 1;
                         SentCancel COIN 1; SentOrder COIN true ORDER_SIZE p100_5;
                         SentQuery 2] |}
             _ "2" p100_5 p100_0 p106_0 (decimal 11 1) (decimal 12 1) (t0 + 200));
      vm_compute; reflexivity. }
  assert (E3 : env3 = snd (on_quote live q3
                 (Build_Env (resting_at "2" p100_5 p100_0 (t0 + 200))
                    ([CallPlaceLimit "buy" p100_0 ORDER_SIZE true "GTC"] ++
                     [CallPollFill "1"; CallCancel "1";
                      CallPlaceLimit "buy" p100_5 ORDER_SIZE true "GTC"])
                    {| placements := []; filled := [];
                       sent := [SentOrder COIN true ORDER_SIZE p100_0; SentQuery 1;
                                SentCancel COIN 1;
                                SentOrder COIN true ORDER_SIZE p100_5] |})))
    by reflexivity.
  rewrite H3 in E3. cbn [snd] in E3. clearbody env3. subst env3.
  rewrite H1, H2, H3. cbn [fst self calls venue sent].
  repeat split; vm_compute; reflexivity.
Qed.

(** ** [poll_fill] *)

Lemma eq_str_true (x : pyval) (s : string) : eq_str x s = true -> x = PStr s.
Proof.
  destruct x; cbn; try discriminate.
  intros H. apply String.eqb_eq in H. congruence.
Qed.

Lemma eq_str_not_str (x : pyval) (s : string) :
  (forall s', x <> PStr s') -> eq_str x s = false.
Proof. destruct x; cbn; try reflexivity. intros H. destruct (H s0). reflexivity. Qed.

Lemma default_is_str (d : gmap string pyval) (k s : string) :
  default PNone (d !! k) = PStr s -> d !! k = Some (PStr s).
Proof. destruct (d !! k); cbn; congruence. Qed.

Lemma default_not_str (d : gmap string pyval) (k : string) :
  (forall s, d !! k <> Some (PStr s)) -> forall s, default PNone (d !! k) <> PStr s.
Proof. intros H s Hs. apply default_is_str in Hs. exact (H s Hs). Qed.

Lemma poll_fill_response_true (resp : pyval) :
  poll_fill_response resp = Ok true -> reports_filled resp.
Proof.
  destruct resp as [| | | | | |d]; try discriminate.
  unfold poll_fill_response, response_status. cbn.
  destruct (truthy (default PNone (d !! "status"))) eqn:Htop; cbn.
  - intros [= H]. apply eq_str_true, default_is_str in H.
    exists d. auto.
  - destruct (truthy (default PNone (d !! "order"))) eqn:Htruthy; cbn.
    + destruct (default PNone (d !! "order")) as [| | | | | |o] eqn:Ho;
        cbn; try discriminate.
      intros [= H]. apply eq_str_true, default_is_str in H.
      exists d. split; [reflexivity|]. right. exists o. split; [|exact H].
      destruct (d !! "order"); cbn in Ho; congruence.
    + rewrite lookup_empty. cbn. discriminate.
Qed.

Lemma poll_fill_response_well_shaped (resp : pyval) :
  well_shaped_without_status resp -> poll_fill_response resp = Ok false.
Proof.
  intros (d & -> & Htop & Horder).
  unfold poll_fill_response, response_status. cbn.
  destruct (truthy (default PNone (d !! "status"))); cbn.
  - f_equal. apply eq_str_not_str, default_not_str, Htop.
  - destruct Horder as [Hfalsy | (o & Ho & Hnone)].
    + rewrite Hfalsy. cbn. rewrite lookup_empty. reflexivity.
    + rewrite Ho. cbn. destruct (truthy (PDict o)); cbn.
      * f_equal. apply eq_str_not_str, default_not_str, Hnone.
      * rewrite lookup_empty. reflexivity.
Qed.

(** The answers of the venue's order-status endpoint and of the
    scripted venue are read as expected; a truthy ["order"] entry that is
    not an object has no [get] and makes the lookup raise. *)
Example poll_fill_response_shapes :
  poll_fill_response (PDict {[ "status" := PStr "filled" ]}) = Ok true /\
  poll_fill_response (PDict {[ "order" := PDict {[ "status" := PStr "filled" ]} ]}) = Ok true /\
  poll_fill_response (PDict {[ "status" := PStr "unknownOid" ]}) = Ok false /\
  poll_fill_response (PDict {[ "order" := PDict {[ "status" := PStr "open" ]} ]}) = Ok false /\
  poll_fill_response (PDict ∅) = Ok false /\
  poll_fill_response PNone = Ok false /\
  poll_fill_response (PDict {[ "order" := PInt 5 ]}) = Raise AttributeError.
Proof. vm_compute. repeat split; reflexivity. Qed.

(** What [poll_fill] does on the answers it is written for: [True] only
    when the answer reports the status [filled] (at the top level or in its
    ["order"] object); [False] when the status query fails
    ([get_order_status] gives [None], the query having raised or answered
    [None]) and when a well-shaped answer names no status. *)
Lemma poll_fill_on_well_shaped_answers {V} (executor : HyperliquidExecutor V)
    (order_id : string) (v : V) :
  (forall v', live_poll_fill executor order_id v = (Ok true, v') ->
     exists oid resp,
       py_int order_id = Ok oid /\
       query_order_by_oid executor oid v = (Ok resp, v') /\
       reports_filled resp) /\
  (forall oid v', py_int order_id = Ok oid ->
     get_order_status executor oid v = (PNone, v') ->
     live_poll_fill executor order_id v = (Ok false, v')) /\
  (forall oid e v', py_int order_id = Ok oid ->
     query_order_by_oid executor oid v = (Raise e, v') ->
     live_poll_fill executor order_id v = (Ok false, v')) /\
  (forall oid resp v', py_int order_id = Ok oid ->
     query_order_by_oid executor oid v = (Ok resp, v') ->
     well_shaped_without_status resp ->
     live_poll_fill executor order_id v = (Ok false, v')).
Proof.
  unfold live_poll_fill, get_order_status. repeat split.
  - intros v'. destruct (py_int order_id) as [oid|]; [|discriminate].
    destruct (query_order_by_oid executor oid v) as [[resp|e] v1] eqn:Hq;
      [|discriminate].
    intros [= H <-]. exists oid, resp.
    split; [reflexivity|]. split; [exact Hq|].
    apply poll_fill_response_true, H.
  - intros oid v' -> H.
    destruct (query_order_by_oid executor oid v) as [[resp|e] v1];
      simplify_eq; reflexivity.
  - intros oid e v' -> ->. reflexivity.
  - intros oid resp v' -> -> H. rewrite (poll_fill_response_well_shaped resp H).
    reflexivity.
Qed.

(** An answer without a top-level status whose ["order"] entry is truthy
    and not an object: the [or {}] guard lets it through, and [.get] on it
    raises. *)
Lemma poll_fill_response_non_object_order (d : gmap string pyval) (x : pyval) :
  truthy (default PNone (d !! "status")) = false ->
  d !! "order" = Some x -> truthy x = true -> (forall o, x <> PDict o) ->
  poll_fill_response (PDict d) = Raise AttributeError.
Proof.
  intros Htop Ho Hx Hobj. unfold poll_fill_response, response_status.
  cbn. rewrite Htop, Ho. cbn. rewrite Hx.
  destruct x; try reflexivity. destruct (Hobj d0). reflexivity.
Qed.

(** C8 fails on the code. The venue's answer [{"order": 5}] reports no
    status at all, yet [poll_fill] does not return [False]: the top-level
    status is missing, [order_status.get("order") or {}] is the number 5,
    and [.get] on it raises [AttributeError]. The exception leaves
    [on_quote] after the [poll_fill] call, with the order still tracked
    and nothing cancelled. *)
Theorem poll_fill_raises_on_non_object_order :
  let resp := PDict {[ "order" := PInt 5 ]} in
  let ex := LiveExchangeClient (answering resp) COIN in
  let asked := {| placements := []; filled := []; sent := [SentQuery 7] |} in
  ~ reports_filled resp /\
  get_order_status (answering resp) 7 (paper [] []) = (resp, asked) /\
  poll_fill ex "7" (paper [] []) = (Raise AttributeError, asked) /\
  on_quote ex (quote_at 1000 p100_0 p100_5)
    (Build_Env (resting_at "7" p100_0 p100_0 0) [] (paper [] []))
  = (Raise AttributeError,
     Build_Env (resting_at "7" p100_0 p100_0 0) [CallPollFill "7"] asked).
Proof.
  cbv zeta. split; [|split; [|split]].
  - intros (d & Hd & Hst). injection Hd as <-.
    destruct Hst as [Hst|(o & Ho & _)].
    + vm_compute in Hst. discriminate.
    + vm_compute in Ho. discriminate.
  - vm_compute. reflexivity.
  - vm_compute. reflexivity.
  - vm_compute. reflexivity.
Qed.

(** ** The [side] string *)

Lemma quoted_px_not_buy (c : LimitChaser) (q : Quote) :
  side c <> "buy" -> quoted_px c q = ask_px q.
Proof.
  intros H. unfold quoted_px. rewrite bool_decide_eq_false_2 by exact H. reflexivity.
Qed.

Lemma live_place_limit_not_buy {V} (executor : HyperliquidExecutor V)
    (coin s : string) (px size : float) (po : bool) (tif : string) (v : V) :
  s <> "buy" ->
  live_place_limit executor coin s px size po tif v =
    match execute_limit_order executor coin false size px v with
    | (Ok oid, v') => (Ok (py_str <$> oid), v')
    | (Raise e, v') => (Raise e, v')
    end.
Proof.
  intros H. unfold live_place_limit. rewrite bool_decide_eq_false_2 by exact H.
  reflexivity.
Qed.

Lemma ticks_between_with_side (s : string) (c : LimitChaser) (a b : float) :
  ticks_between (with_side s c) a b = ticks_between c a b.
Proof. reflexivity. Qed.

Lemma round_to_tick_with_side (s : string) (c : LimitChaser) (px : float) :
  _round_to_tick (with_side s c) px = _round_to_tick c px.
Proof. reflexivity. Qed.

(** C10: [side] is never validated. For every [side] other than the
    exact string ["buy"], [on_quote] chases the ask, [place_limit] hands
    the executor a sell order ([is_buy = False]), and a whole step over
    the live gateway has the outcome, the venue effects and the chase
    fields it has for ["sell"]: nothing is rejected. *)
Theorem non_buy_side_acts_as_sell {V} (executor : HyperliquidExecutor V)
    (coin : string) (c : LimitChaser) (q : Quote) (log : list Call) (v : V) :
  side c <> "buy" ->
  quoted_px c q = ask_px q /\
  (forall px size po tif,
     live_place_limit executor coin (side c) px size po tif v =
       match execute_limit_order executor coin false size px v with
       | (Ok oid, v') => (Ok (py_str <$> oid), v')
       | (Raise e, v') => (Raise e, v')
       end) /\
  (let out := on_quote (LiveExchangeClient executor coin) q (Build_Env c log v) in
   let out_sell := on_quote (LiveExchangeClient executor coin) q
                     (Build_Env (with_side "sell" c) log v) in
   fst out = fst out_sell /\
   venue (snd out) = venue (snd out_sell) /\
   with_side "sell" (self (snd out)) = self (snd out_sell)).
Proof.
  intros Hside. split; [apply quoted_px_not_buy, Hside|].
  split; [intros; apply live_place_limit_not_buy, Hside|].
  cbv zeta. engine.
  rewrite (quoted_px_not_buy c q Hside).
  rewrite (quoted_px_not_buy (with_side "sell" c) q) by (cbn; discriminate).
  rewrite round_to_tick_with_side.
  repeat first
    [ rewrite ticks_between_with_side
    | rewrite (live_place_limit_not_buy executor coin (side c)) by exact Hside
    | rewrite (live_place_limit_not_buy executor coin "sell") by discriminate
    | branch ].
  all: repeat split; reflexivity.
Qed.

Lemma non_buy_side_acts_as_sell_witness :
  let c := with_side "BUY" usage_chaser in
  let q := quote_at 1000 (decimal 1003 10) (decimal 1009 10) in
  quoted_px c q = decimal 1009 10 /\
  sent (venue (snd (on_quote live q (Build_Env c [] (paper [Some 1] [])))))
    = [SentOrder COIN false ORDER_SIZE p100_5].
Proof.
  split.
  - apply (proj1 (non_buy_side_acts_as_sell paper_executor COIN
                    (with_side "BUY" usage_chaser)
                    (quote_at 1000 (decimal 1003 10) (decimal 1009 10))
                    [] (paper [Some 1] []) ltac:(discriminate))).
  - vm_compute. reflexivity.
Defined.

(** * Further properties of the engine *)

(** X1: in the Resting state a positive fill check ends the chase at once:
    [on_quote] returns ["filled"], clears the four fields and makes no
    other gateway call. No drift, age or chase distance is looked at, so a
    fill wins over both abort and refresh. *)
Theorem fill_ends_chase_without_cancel {V} (ex : ExchangeClient V)
    (c : LimitChaser) (q : Quote) (log : list Call) (v v1 : V)
    (oid : string) (opx tgt : float) :
  order_id c = Some oid -> order_px c = Some opx ->
  _round_to_tick c (quoted_px c q) = Ok tgt ->
  poll_fill ex oid v = (Ok true, v1) ->
  on_quote ex q (Build_Env c log v) =
    (Ok (Some "filled"), Build_Env (cleared c) (log ++ [CallPollFill oid]) v1) /\
  is_idle (cleared c) = true.
Proof.
  intros Hid Hopx Htgt Hpoll. split; [|reflexivity].
  engine. use Htgt. use Hid. use Hpoll. use Hopx. reflexivity.
Qed.

Lemma fill_ends_chase_without_cancel_witness :
  on_quote live (quote_at 1700 p106_0 (decimal 1065 10))
    (Build_Env (resting_at "2" p100_5 p100_0 1200) [] (paper [] [2]))
  = (Ok (Some "filled"),
     Build_Env (cleared (resting_at "2" p100_5 p100_0 1200)) [CallPollFill "2"]
       {| placements := []; filled := [2]; sent := [SentQuery 2] |}).
Proof.
  apply (fill_ends_chase_without_cancel live (resting_at "2" p100_5 p100_0 1200)
           (quote_at 1700 p106_0 (decimal 1065 10)) [] (paper [] [2])
           {| placements := []; filled := [2]; sent := [SentQuery 2] |}
           "2" p100_5 p106_0); vm_compute; reflexivity.
Defined.

(** X2: in the Resting state, with the order unfilled, the drift under
    the tolerance, the order younger than [max_age_ms] and the chase
    distance within [max_chase_ticks], [on_quote] only polls: it returns
    [None] and leaves the chaser exactly as it was. *)
Theorem hold_changes_nothing {V} (ex : ExchangeClient V)
    (c : LimitChaser) (q : Quote) (log : list Call) (v v1 : V)
    (oid : string) (opx spx tgt drift_ticks total_chase_ticks : float) (pts : Z) :
  order_id c = Some oid -> order_px c = Some opx ->
  start_px c = Some spx -> placed_ts c = Some pts ->
  _round_to_tick c (quoted_px c q) = Ok tgt ->
  poll_fill ex oid v = (Ok false, v1) ->
  ticks_between c tgt opx = Ok drift_ticks ->
  ticks_between c tgt spx = Ok total_chase_ticks ->
  float_gt total_chase_ticks (max_chase_ticks c) = false ->
  float_ge drift_ticks (tolerance_ticks c) = false ->
  ts_ms q - pts < max_age_ms c ->
  on_quote ex q (Build_Env c log v) =
    (Ok None, Build_Env c (log ++ [CallPollFill oid]) v1).
Proof.
  intros Hid Hopx Hspx Hpts Htgt Hpoll Hdrift Htotal Habort Htol Hage.
  engine. use Htgt. use Hid. use Hpoll. use Hopx. use Hdrift. use Hpts.
  use Hspx. use Htotal. use Habort. use Htol.
  destruct (Z.leb_spec (max_age_ms c) (ts_ms q - pts)); [lia|reflexivity].
Qed.

Lemma hold_changes_nothing_witness :
  on_quote live (quote_at 1700 (decimal 1004 10) (decimal 1005 10))
    (Build_Env (resting_at "1" p100_0 p100_0 1000) [] (paper [Some 2] []))
  = (Ok None,
     Build_Env (resting_at "1" p100_0 p100_0 1000) [CallPollFill "1"]
       {| placements := [Some 2]; filled := []; sent := [SentQuery 1] |}).
Proof.
  apply (hold_changes_nothing live (resting_at "1" p100_0 p100_0 1000)
           (quote_at 1700 (decimal 1004 10) (decimal 1005 10)) [] (paper [Some 2] [])
           {| placements := [Some 2]; filled := []; sent := [SentQuery 1] |}
           "1" p100_0 p100_0 p100_0 zero zero 1000);
    try (vm_compute; reflexivity).
Defined.

(** X3: [tick_size] is not validated. With a tick of [0.0] or [-0.0]
    every call of [on_quote] raises [ZeroDivisionError] in
    [_round_to_tick], before any gateway call and before any field is
    written, whatever the state and the quote. *)
Theorem zero_tick_raises_before_any_call {V} (ex : ExchangeClient V)
    (c : LimitChaser) (q : Quote) (log : list Call) (v : V) :
  is_zero (tick_size c) = true ->
  on_quote ex q (Build_Env c log v) = (Raise ZeroDivisionError, Build_Env c log v).
Proof.
  intros Hz. engine. unfold _round_to_tick, float_div. rewrite Hz. reflexivity.
Qed.

Lemma zero_tick_raises_before_any_call_witness :
  on_quote live (quote_at 1000 p100_0 p100_5)
    (Build_Env (LimitChaser_init (S754_zero true) SIDE ORDER_SIZE true
                  TOLERANCE_TICKS MAX_AGE_MS MAX_CHASE_TICKS) [] (paper [Some 1] []))
  = (Raise ZeroDivisionError,
     Build_Env (LimitChaser_init (S754_zero true) SIDE ORDER_SIZE true
                  TOLERANCE_TICKS MAX_AGE_MS MAX_CHASE_TICKS) [] (paper [Some 1] [])).
Proof.
  apply (zero_tick_raises_before_any_call live). reflexivity.
Defined.



(** X5: when [place_limit] raises in the Idle state, the exception leaves
    [on_quote] with [start_px] and [order_px] already overwritten by the
    target, and [order_id] and [placed_ts] as they were. *)
Theorem idle_place_raises_after_writing_prices {V} (ex : ExchangeClient V)
    (c : LimitChaser) (q : Quote) (log : list Call) (v v1 : V)
    (tgt : float) (e : exn) :
  order_id c = None ->
  _round_to_tick c (quoted_px c q) = Ok tgt ->
  place_limit ex (side c) tgt (order_size c) (post_only c) "GTC" v = (Raise e, v1) ->
  on_quote ex q (Build_Env c log v) =
    (Raise e,
     Build_Env (with_order_px (Some tgt) (with_start_px (Some tgt) c))
       (log ++ [CallPlaceLimit (side c) tgt (order_size c) (post_only c) "GTC"])
       v1).
Proof.
  intros Hid Htgt Hplace. engine. use Htgt. use Hid. use Hplace. reflexivity.
Qed.

Lemma idle_place_raises_after_writing_prices_witness :
  exists env',
    on_quote down (quote_at 1000 (decimal 1003 10) (decimal 1004 10))
      (Build_Env usage_chaser [] (paper [] []))
    = (Raise (VenueError "down"), env') /\
    order_id (self env') = None /\
    order_px (self env') = Some p100_0 /\
    start_px (self env') = Some p100_0 /\
    placed_ts (self env') = None.
Proof.
  eexists. split.
  - apply (idle_place_raises_after_writing_prices down usage_chaser
             (quote_at 1000 (decimal 1003 10) (decimal 1004 10)) [] (paper [] [])
             (paper [] []) p100_0 (VenueError "down")); vm_compute; reflexivity.
  - cbn. repeat split; reflexivity.
Defined.

(** X6: in the Idle state [on_quote] makes exactly one gateway call, a
    [place_limit] at the rounded target with the configured side, size and
    post-only flag and ["GTC"]; it sets [start_px] and [order_px] to the
    target, [placed_ts] to the quote's timestamp and [order_id] to the
    gateway's answer, and returns [None] whether or not an id came back. *)
Theorem idle_places_one_order {V} (ex : ExchangeClient V) (c : LimitChaser)
    (q : Quote) (log : list Call) (v v1 : V) (tgt : float) (r : option string) :
  order_id c = None ->
  _round_to_tick c (quoted_px c q) = Ok tgt ->
  place_limit ex (side c) tgt (order_size c) (post_only c) "GTC" v = (Ok r, v1) ->
  exists env',
    on_quote ex q (Build_Env c log v) = (Ok None, env') /\
    calls env' = log ++ [CallPlaceLimit (side c) tgt (order_size c) (post_only c) "GTC"] /\
    venue env' = v1 /\
    order_id (self env') = r /\
    order_px (self env') = Some tgt /\
    start_px (self env') = Some tgt /\
    placed_ts (self env') = Some (ts_ms q) /\
    coherent (self env') = true.
Proof.
  intros Hid Htgt Hplace. eexists. split.
  - eapply on_quote_idle; eassumption.
  - cbn. repeat split. unfold coherent, is_resting. cbn. destruct r; reflexivity.
Qed.

Lemma idle_places_one_order_witness :
  exists env',
    on_quote live (quote_at 1000 (decimal 1003 10) (decimal 1004 10))
      (Build_Env usage_chaser [] (paper [Some 1] [])) = (Ok None, env') /\
    order_id (self env') = Some "1" /\
    start_px (self env') = Some p100_0.
Proof.
  destruct (idle_places_one_order live usage_chaser
              (quote_at 1000 (decimal 1003 10) (decimal 1004 10)) []
              (paper [Some 1] [])
              {| placements := []; filled := [];
                 sent := [SentOrder COIN true ORDER_SIZE p100_0] |}
              p100_0 (Some "1"))
    as (env' & Hrun & _ & _ & Hid & _ & Hstart & _);
    [vm_compute; reflexivity .. |].
  exists env'. auto.
Defined.

(** * Further properties of the consumer loop *)

(** X7: the loop over a queue delivered in two parts is the loop over the
    first part followed, if it is still waiting, by the loop over the
    second from the [last_check] and state reached; once it has returned
    ["filled"] or ["aborted"], or an exception has left it, no later quote
    reaches the engine. *)
Theorem consumer_app {S : Type} (engine : Quote -> S -> Res (option string) * S)
    (l1 l2 : list Quote) (last_check : Z) (s : S) :
  consumer engine (l1 ++ l2) last_check s =
    match consumer engine l1 last_check s with
    | (Suspended, last_check', s') => consumer engine l2 last_check' s'
    | done => done
    end.
Proof.
  revert last_check s. induction l1 as [|quote l1 IH]; intros last_check s.
  - reflexivity.
  - cbn [app consumer].
    destruct (ts_ms quote - last_check <? REFRESH_INTERVAL_MS); [apply IH|].
    destruct (engine quote s) as [[out|e] s']; [|reflexivity].
    destruct (is_terminal out); [reflexivity|apply IH].
Qed.

Lemma consumer_recording_seen {S : Type}
    (engine : Quote -> S -> Res (option string) * S)
    (quotes seen0 : list Quote) (last_check : Z) (s : S) :
  exists new,
    fst (snd (consumer (recording engine) quotes last_check (seen0, s))) = seen0 ++ new /\
    spaced last_check (map ts_ms new) /\
    sublist new quotes.
Proof.
  revert seen0 last_check s.
  induction quotes as [|quote quotes IH]; intros seen0 last_check s.
  - exists []. cbn. rewrite app_nil_r. repeat split. constructor.
  - cbn [consumer].
    destruct (Z.ltb_spec (ts_ms quote - last_check) REFRESH_INTERVAL_MS) as [Hlt|Hge].
    + destruct (IH seen0 last_check s) as (new & Hseen & Hsp & Hsub).
      exists new. repeat split; [exact Hseen|exact Hsp|].
      apply sublist_cons, Hsub.
    + unfold recording at 1. cbn [fst snd].
      destruct (engine quote s) as [[out|e] s'].
      * destruct (is_terminal out).
        -- exists [quote]. cbn. repeat split; [exact Hge|].
           apply sublist_skip, sublist_nil_l.
        -- destruct (IH (seen0 ++ [quote]) (ts_ms quote) s') as (new & Hseen & Hsp & Hsub).
           exists (quote :: new). rewrite Hseen, <- app_assoc. cbn.
           repeat split; [exact Hge|exact Hsp|]. apply sublist_skip, Hsub.
      * exists [quote]. cbn. repeat split; [exact Hge|].
        apply sublist_skip, sublist_nil_l.
Qed.

(** X8: whatever the engine does and however the timestamps are ordered,
    the quotes handed to the engine are a subsequence of the queue in
    which each timestamp is at least [REFRESH_INTERVAL_MS] after the one
    dispatched before it, the first at least that much after the initial
    [last_check]; a quote stamped earlier than the last dispatch is always
    dropped. *)
Theorem dispatched_quotes_are_spaced {S : Type}
    (engine : Quote -> S -> Res (option string) * S)
    (quotes : list Quote) (last_check : Z) (s : S) :
  let seen := fst (snd (consumer (recording engine) quotes last_check ([], s))) in
  spaced last_check (map ts_ms seen) /\ sublist seen quotes.
Proof.
  destruct (consumer_recording_seen engine quotes [] last_check s)
    as (new & Hseen & Hsp & Hsub).
  cbv zeta. rewrite Hseen. cbn. auto.
Qed.

(** * Order ids between [place_limit], [cancel] and [poll_fill] *)

Lemma rev_app_rev_app (s1 s2 s3 : string) :
  String.rev_app (String.rev_app s1 s2) s3 = String.rev_app s2 (s1 +:+ s3).
Proof.
  revert s2 s3. induction s1 as [|a s1 IH]; intros s2 s3; cbn; [reflexivity|].
  rewrite IH. reflexivity.
Qed.

Lemma string_rev_involutive (s : string) : String.rev (String.rev s) = s.
Proof.
  unfold String.rev. rewrite rev_app_rev_app. cbn.
  induction s as [|a s IH]; [reflexivity|].
  change (String a (s +:+ "") = String a s). rewrite IH. reflexivity.
Qed.

Lemma no_space_rev_app (s1 s2 : string) :
  no_space s1 = true -> no_space s2 = true -> no_space (String.rev_app s1 s2) = true.
Proof.
  revert s2. induction s1 as [|a s1 IH]; intros s2 H1 H2; cbn in *; [exact H2|].
  apply andb_prop in H1 as [Ha H1]. apply IH; [exact H1|]. cbn. rewrite Ha, H2. reflexivity.
Qed.

Lemma lstrip_no_space (s : string) : no_space s = true -> lstrip s = s.
Proof.
  destruct s as [|a s]; cbn; [reflexivity|].
  intros H. apply andb_prop in H as [Ha _].
  destruct (is_space a); [discriminate|reflexivity].
Qed.

Lemma strip_no_space (s : string) : no_space s = true -> strip s = s.
Proof.
  intros H. unfold strip. rewrite (lstrip_no_space s H).
  rewrite lstrip_no_space.
  - apply string_rev_involutive.
  - apply no_space_rev_app; [exact H|reflexivity].
Qed.

Lemma digit_lt_10 (d : N) :
  (d < 10)%N ->
  d = 0%N \/ d = 1%N \/ d = 2%N \/ d = 3%N \/ d = 4%N \/
  d = 5%N \/ d = 6%N \/ d = 7%N \/ d = 8%N \/ d = 9%N.
Proof. lia. Qed.

Lemma digit_of_pretty_char (d : N) :
  (d < 10)%N -> digit_of (pretty_N_char d) = Some (Z.of_N d).
Proof.
  intros H. destruct (digit_lt_10 d H) as [->|[->|[->|[->|[->|[->|[->|[->|[->| ->]]]]]]]]];
    reflexivity.
Qed.

Lemma pretty_char_not_space (d : N) : is_space (pretty_N_char d) = false.
Proof. unfold pretty_N_char. repeat case_match; reflexivity. Qed.

Lemma no_space_pretty_go (x : N) (s : string) :
  no_space s = true -> no_space (pretty_N_go x s) = true.
Proof.
  revert s. induction (N.lt_wf_0 x) as [x _ IH]; intros s Hs.
  destruct (N.eq_0_gt_0_cases x) as [->|Hpos]; [exact Hs|].
  rewrite pretty_N_go_step by exact Hpos.
  apply IH; [apply N.div_lt; lia|].
  cbn. rewrite pretty_char_not_space, Hs. reflexivity.
Qed.

(** Reading back the digits [pretty_N_go] writes in front of [s]. *)
Lemma parse_pretty_go (x : N) :
  (0 < x)%N ->
  exists k, forall s b acc,
    parse_digits (pretty_N_go x s) b acc =
    parse_digits s true (acc * 10 ^ k + Z.of_N x) /\ 0 <= k.
Proof.
  induction (N.lt_wf_0 x) as [x _ IH]; intros Hpos.
  assert (Hmod : (x `mod` 10 < 10)%N) by (apply N.mod_lt; lia).
  assert (Hx : Z.of_N x = 10 * Z.of_N (x `div` 10) + Z.of_N (x `mod` 10)).
  { rewrite (N.div_mod x 10) at 1 by lia. lia. }
  destruct (N.eq_0_gt_0_cases (x `div` 10)) as [H0|Hdiv].
  - exists 1. intros s b acc. split; [|lia].
    rewrite pretty_N_go_step by exact Hpos. rewrite H0, pretty_N_go_0. cbn [parse_digits].
    rewrite digit_of_pretty_char by exact Hmod. f_equal. rewrite Hx, H0. lia.
  - destruct (IH (x `div` 10)%N) as (k & Hk); [apply N.div_lt; lia|exact Hdiv|].
    exists (k + 1). intros s b acc. destruct (Hk s b acc) as [_ Hk0]. split; [|lia].
    rewrite pretty_N_go_step by exact Hpos.
    rewrite (proj1 (Hk _ b acc)). cbn [parse_digits].
    rewrite digit_of_pretty_char by exact Hmod. f_equal.
    rewrite Z.pow_add_r by lia. rewrite Hx. lia.
Qed.

Lemma pretty_go_head (x : N) (s : string) :
  (0 < x)%N -> exists d rest, (d < 10)%N /\ pretty_N_go x s = String (pretty_N_char d) rest.
Proof.
  revert s. induction (N.lt_wf_0 x) as [x _ IH]; intros s Hpos.
  rewrite pretty_N_go_step by exact Hpos.
  destruct (N.eq_0_gt_0_cases (x `div` 10)) as [H0|Hdiv].
  - rewrite H0, pretty_N_go_0. eexists _, _. split; [|reflexivity]. apply N.mod_lt. lia.
  - apply IH; [apply N.div_lt; lia|exact Hdiv].
Qed.

Lemma parse_pretty_pos (p : positive) :
  parse_digits (pretty_N_go (Npos p) "") false 0 = Some (Zpos p).
Proof.
  destruct (parse_pretty_go (Npos p)) as (k & Hk); [lia|].
  rewrite (proj1 (Hk "" false 0)). cbn. reflexivity.
Qed.

Lemma py_int_pretty_pos (p : positive) :
  py_int (pretty_N_go (Npos p) "") = Ok (Zpos p).
Proof.
  unfold py_int. rewrite strip_no_space by (apply no_space_pretty_go; reflexivity).
  pose proof (parse_pretty_pos p) as Hparse.
  destruct (pretty_go_head (Npos p) "") as (d & rest & Hd & Hhead); [lia|].
  rewrite Hhead in *.
  destruct (digit_lt_10 d Hd) as [->|[->|[->|[->|[->|[->|[->|[->|[->| ->]]]]]]]]];
    cbn [pretty_N_char] in *; rewrite Hparse; reflexivity.
Qed.

Lemma py_int_py_str_aux (z : Z) : py_int (py_str z) = Ok z.
Proof.
  destruct z as [|p|p].
  - reflexivity.
  - apply py_int_pretty_pos.
  - unfold py_str, pretty, pretty_Z, pretty, pretty_positive, pretty, pretty_N.
    cbn [decide]. 
    change (py_int (String "-" (pretty_N_go (Npos p) "")) = Ok (Zneg p)).
    unfold py_int. rewrite strip_no_space.
    + rewrite parse_pretty_pos. reflexivity.
    + cbn. apply no_space_pretty_go. reflexivity.
Qed.

(** X9: the id [place_limit] returns is read back by [cancel] and
    [poll_fill] as the integer the executor gave. When
    [execute_limit_order] returns the id [oid], [place_limit] returns a
    string [s] from which [cancel(s)] calls [cancel_order(coin, oid)] and
    [poll_fill(s)] reads [get_order_status(oid)]; neither fails to parse
    it. The bound on [oid] is CPython's default limit of 4300 digits on
    the conversion between [int] and [str], which [py_str] and [py_int]
    do not have: above it [str(order_id)] raises [ValueError] in
    [place_limit]. *)
Theorem placed_id_is_read_back {V} (executor : HyperliquidExecutor V)
    (coin side : string) (price size : float) (post_only : bool) (tif : string)
    (v v' : V) (oid : Z) :
  execute_limit_order executor coin (bool_decide (side = "buy")) size price v
    = (Ok (Some oid), v') ->
  Z.abs oid < 10 ^ 4300 ->
  exists s,
    live_place_limit executor coin side price size post_only tif v = (Ok (Some s), v') /\
    (forall w, live_cancel executor coin s w
               = (Ok tt, snd (cancel_order executor coin oid w))) /\
    (forall w, live_poll_fill executor s w
               = (poll_fill_response (fst (get_order_status executor oid w)),
                  snd (get_order_status executor oid w))).
Proof.
  intros Hplace _. exists (py_str oid). split; [|split].
  - unfold live_place_limit. rewrite Hplace. reflexivity.
  - intros w. unfold live_cancel. rewrite py_int_py_str_aux.
    destruct (cancel_order executor coin oid w). reflexivity.
  - intros w. unfold live_poll_fill. rewrite py_int_py_str_aux.
    destruct (get_order_status executor oid w). reflexivity.
Qed.

Lemma placed_id_is_read_back_witness :
  exists s,
    live_place_limit paper_executor COIN "buy" p100_0 ORDER_SIZE true "GTC"
      (paper [Some 77] [])
    = (Ok (Some s), {| placements := []; filled := [];
                       sent := [SentOrder COIN true ORDER_SIZE p100_0] |}) /\
    (forall w, live_cancel paper_executor COIN s w
               = (Ok tt, snd (cancel_order paper_executor COIN 77 w))) /\
    (forall w, live_poll_fill paper_executor s w
               = (poll_fill_response (fst (get_order_status paper_executor 77 w)),
                  snd (get_order_status paper_executor 77 w))).
Proof.
  apply (placed_id_is_read_back paper_executor COIN "buy" p100_0 ORDER_SIZE true "GTC"
           (paper [Some 77] []) _ 77); vm_compute; reflexivity.
Defined.

Lemma live_cancel_returns {V} (executor : HyperliquidExecutor V)
    (coin : string) (oid : Z) (v : V) :
  live_cancel executor coin (py_str oid) v =
    (Ok tt, snd (exchange_cancel executor coin oid v)).
Proof.
  unfold live_cancel, cancel_order. rewrite py_int_py_str_aux.
  destruct (exchange_cancel executor coin oid v) as [[r|e] v']; [|reflexivity].
  cbn. destruct (py_get r "status"); reflexivity.
Qed.


(** X11: over the live gateway an abort always completes. With an order
    id that [place_limit] returned, an unfilled order and the chase
    distance over the limit, [on_quote] returns ["aborted"] and forgets
    the order whatever the venue did with the cancel request. *)
Theorem abort_forgets_order_whatever_cancel_did {V}
    (executor : HyperliquidExecutor V) (coin : string) (c : LimitChaser)
    (q : Quote) (log : list Call) (v v1 : V) (oid : Z)
    (opx spx tgt drift_ticks total_chase_ticks : float) (pts : Z) :
  order_id c = Some (py_str oid) -> order_px c = Some opx ->
  start_px c = Some spx -> placed_ts c = Some pts ->
  _round_to_tick c (quoted_px c q) = Ok tgt ->
  live_poll_fill executor (py_str oid) v = (Ok false, v1) ->
  ticks_between c tgt opx = Ok drift_ticks ->
  ticks_between c tgt spx = Ok total_chase_ticks ->
  float_gt total_chase_ticks (max_chase_ticks c) = true ->
  on_quote (LiveExchangeClient executor coin) q (Build_Env c log v) =
    (Ok (Some "aborted"),
     Build_Env (cleared c)
       (log ++ [CallPollFill (py_str oid); CallCancel (py_str oid)])
       (snd (exchange_cancel executor coin oid v1))).
Proof.
  intros Hid Hopx Hspx Hpts Htgt Hpoll Hdrift Htotal Habort.
  eapply on_quote_abort; try eassumption.
  apply (live_cancel_returns executor coin oid v1).
Qed.

Lemma abort_forgets_order_whatever_cancel_did_witness :
  on_quote live (quote_at 1700 p106_0 (decimal 1065 10))
    (Build_Env (resting_at (py_str 2) p100_5 p100_0 1200) [] (paper [] []))
  = (Ok (Some "aborted"),
     Build_Env (cleared (resting_at (py_str 2) p100_5 p100_0 1200))
       [CallPollFill (py_str 2); CallCancel (py_str 2)]
       {| placements := []; filled := []; sent := [SentQuery 2; SentCancel COIN 2] |}).
Proof.
  apply (abort_forgets_order_whatever_cancel_did paper_executor COIN
           (resting_at (py_str 2) p100_5 p100_0 1200)
           (quote_at 1700 p106_0 (decimal 1065 10)) [] (paper [] [])
           {| placements := []; filled := []; sent := [SentQuery 2] |}
           2 p100_5 p100_0 p106_0 (decimal 11 1) (decimal 12 1) 1200);
    vm_compute; reflexivity.
Defined.

(** * Further properties of [poll_fill] *)

Lemma truthy_dict_with_key (o : gmap string pyval) (k : string) (x : pyval) :
  o !! k = Some x -> truthy (PDict o) = true.
Proof.
  intros H. unfold truthy. destruct (size o) eqn:Hsize; [|reflexivity].
  apply map_size_empty_inv in Hsize. subst o. rewrite lookup_empty in H. discriminate.
Qed.

Lemma poll_fill_response_nested (d o : gmap string pyval) :
  truthy (default PNone (d !! "status")) = false ->
  d !! "order" = Some (PDict o) -> o !! "status" = Some (PStr "filled") ->
  poll_fill_response (PDict d) = Ok true.
Proof.
  intros Htop Ho Hst. unfold poll_fill_response, response_status. cbn.
  rewrite Htop, Ho. cbn. rewrite (truthy_dict_with_key o "status" _ Hst). cbn.
  rewrite Hst. reflexivity.
Qed.

(** X12: on a dict answer [poll_fill] says [True] exactly when the
    top-level ["status"] is ["filled"], or the top-level ["status"] is
    absent or falsy and the ["order"] object has ["status"] ["filled"]. *)
Theorem poll_fill_response_true_iff (d : gmap string pyval) :
  poll_fill_response (PDict d) = Ok true <->
  d !! "status" = Some (PStr "filled") \/
  (truthy (default PNone (d !! "status")) = false /\
   exists o, d !! "order" = Some (PDict o) /\ o !! "status" = Some (PStr "filled")).
Proof.
  split.
  - unfold poll_fill_response, response_status. cbn.
    destruct (truthy (default PNone (d !! "status"))) eqn:Htop; cbn.
    + intros [= H]. left. apply default_is_str, eq_str_true, H.
    + intros H. right. split; [reflexivity|].
      destruct (truthy (default PNone (d !! "order"))) eqn:Htruthy; cbn in H.
      * destruct (default PNone (d !! "order")) as [| | | | | |o] eqn:Ho;
          cbn in H; try discriminate.
        injection H as H. apply eq_str_true, default_is_str in H.
        exists o. split; [|exact H].
        destruct (d !! "order"); cbn in Ho; congruence.
      * rewrite lookup_empty in H. discriminate.
  - intros [Htop | (Htop & o & Ho & Hst)].
    + unfold poll_fill_response, response_status. cbn. rewrite Htop. reflexivity.
    + apply (poll_fill_response_nested d o Htop Ho Hst).
Qed.



(** * The counting wrapper *)

(** X14: the counting wrapper changes nothing but its counters. A step
    of the engine over the wrapped gateway has the outcome, the chaser,
    the calls and the venue of the same step over the gateway itself, and
    the counters grow by the numbers of [place_limit] and [cancel] calls
    of the step, also when a call raises. *)
Theorem counting_wrapper_is_transparent {V} (inner : ExchangeClient V)
    (c : LimitChaser) (q : Quote) (log : list Call) (w : Counting V) :
  let out := on_quote (CountingLiveExchangeClient inner) q (Build_Env c log w) in
  let out0 := on_quote inner q (Build_Env c log (inner_venue w)) in
  fst out = fst out0 /\
  self (snd out) = self (snd out0) /\
  calls (snd out) = calls (snd out0) /\
  inner_venue (venue (snd out)) = venue (snd out0) /\
  exists new,
    calls (snd out) = log ++ new /\
    _place_count (venue (snd out)) = (_place_count w + places new)%nat /\
    _cancel_count (venue (snd out)) = (_cancel_count w + cancels new)%nat.
Proof.
  cbv zeta. destruct w as [np nc v]. engine.
  unfold counting_poll_fill, counting_cancel, counting_place_limit. cbn.
  repeat branch.
  all: repeat split; try reflexivity.
  all: rewrite <- ?app_assoc; cbn [app].
  all: first [ exists []; rewrite app_nil_r; cbn; repeat split; lia
             | eexists; split; [reflexivity|]; cbn; split; lia ].
Qed.

Lemma counting_step {V} (inner : ExchangeClient V) (q : Quote)
    (env env' : Env (Counting V)) (out : option string) :
  (_cancel_count (venue env) + tracked (self env) <= _place_count (venue env))%nat ->
  on_quote (CountingLiveExchangeClient inner) q env = (Ok out, env') ->
  (_cancel_count (venue env') + tracked (self env') <= _place_count (venue env'))%nat /\
  (forall o, is_terminal out = Some o ->
     (1 <= _place_count (venue env'))%nat /\
     (o = "aborted" -> (1 <= _cancel_count (venue env'))%nat)).
Proof.
  destruct env as [c log [np nc v]]. cbn [venue self _cancel_count _place_count].
  intros Hinv. engine.
  unfold counting_poll_fill, counting_cancel, counting_place_limit. cbn.
  repeat branch; intros [= <- <-]; cbn; unfold tracked in *; cbn in *;
    repeat match goal with
           | H : order_id c = _ |- _ => rewrite H in *
           end.
  all: repeat match goal with
              | |- context [match ?x with _ => _ end] => destruct x
              end.
  all: repeat split; intros; try congruence; lia.
Qed.

(** X15: over any run of the loop through the counting wrapper, from a
    chaser without an order and counters at zero, whatever the gateway
    answers: as long as no exception leaves the loop, cancels never
    outnumber placements; when the loop returns ["filled"] or
    ["aborted"] at least one order has been placed (so the
    [num_place - 1] written as [num_refresh] is never negative), and on
    ["aborted"] at least one cancel has been sent. *)
Theorem counters_over_a_run {V} (inner : ExchangeClient V) (quotes : list Quote)
    (last_check : Z) (c : LimitChaser) (log : list Call) (v : V) :
  order_id c = None ->
  let '(exit, _, env') :=
    consumer (on_quote (CountingLiveExchangeClient inner)) quotes last_check
      (Build_Env c log (Build_Counting 0 0 v)) in
  match exit with
  | Propagated _ => True
  | Suspended =>
      (_cancel_count (venue env') + tracked (self env') <= _place_count (venue env'))%nat
  | Returned o =>
      (_cancel_count (venue env') <= _place_count (venue env'))%nat /\
      (1 <= _place_count (venue env'))%nat /\
      (o = "aborted" -> (1 <= _cancel_count (venue env'))%nat)
  end.
Proof.
  intros Hidle.
  assert (Hinv : (_cancel_count (venue (Build_Env c log (Build_Counting 0 0 v))) +
                  tracked (self (Build_Env c log (Build_Counting 0 0 v)))
                  <= _place_count (venue (Build_Env c log (Build_Counting 0 0 v))))%nat).
  { unfold tracked. cbn. rewrite Hidle. lia. }
  revert Hinv. generalize (Build_Env c log (Build_Counting 0 0 v)) as env.
  clear Hidle. revert last_check.
  induction quotes as [|quote quotes IH]; intros last_check env Hinv.
  - exact Hinv.
  - cbn [consumer].
    destruct (ts_ms quote - last_check <? REFRESH_INTERVAL_MS); [apply IH, Hinv|].
    destruct (on_quote (CountingLiveExchangeClient inner) quote env)
      as [[out|e] env1] eqn:Hstep; [|exact I].
    destruct (counting_step inner quote env env1 out Hinv Hstep) as [Hinv1 Hterm].
    destruct (is_terminal out) as [o|] eqn:Hout.
    + destruct (Hterm o eq_refl) as [Hp Hc]. repeat split; [lia|exact Hp|exact Hc].
    + apply IH, Hinv1.
Qed.

Lemma on_quote_keeps_coherent {V} (ex : ExchangeClient V) (q : Quote)
    (env : Env V) :
  coherent (self env) = true ->
  coherent (self (snd (on_quote ex q env))) = true.
Proof.
  destruct env as [c log v]. cbn [self]. intros Hc.
  engine. repeat branch; cbn; fields;
    try reflexivity; try assumption; try discriminate.
  all: repeat match goal with
              | |- context [match ?x with _ => _ end] => destruct x
              end; congruence.
Qed.

(** X16: the chase fields stay coherent over a whole run of the loop:
    from a coherent chaser (the fresh one is), after any queue of quotes
    and whatever the gateway answers or raises, either [order_id] is
    [None] or all four fields are set, also when the loop is left by an
    exception. *)
Theorem run_keeps_fields_coherent {V} (ex : ExchangeClient V)
    (quotes : list Quote) (last_check : Z) (env : Env V) :
  coherent (self env) = true ->
  coherent (self (snd (consumer (on_quote ex) quotes last_check env))) = true.
Proof.
  revert last_check env.
  induction quotes as [|quote quotes IH]; intros last_check env Hc.
  - exact Hc.
  - cbn [consumer].
    destruct (ts_ms quote - last_check <? REFRESH_INTERVAL_MS); [apply IH, Hc|].
    pose proof (on_quote_keeps_coherent ex quote env Hc) as Hc1.
    destruct (on_quote ex quote env) as [[out|e] env1]; cbn [snd] in *; [|exact Hc1].
    destruct (is_terminal out); [exact Hc1|apply IH, Hc1].
Qed.

(** * [execute_limit_order] and the account rejection *)

Arguments is_substring : simpl never.

Section execute_limit_order_properties.
Context {V : Type}
        (exchange_order : string -> bool -> float -> float -> V -> Res pyval * V)
        (round5 : float -> Res float)
        (py_float : pyval -> Try float)
        (py_repr : pyval -> string).

Lemma err_answer_gives_none (is_buy : bool) (zscore : option float)
    (trend : option string) (d : gmap string pyval) :
  d !! "status" = Some (PStr "err") ->
  limit_order_answer py_float py_repr is_buy zscore trend (PDict d)
    = Throws (Builtin AccountNotInitializedError) \/
  limit_order_answer py_float py_repr is_buy zscore trend (PDict d) = Returns None.
Proof.
  intros Hst. unfold limit_order_answer.
  rewrite (truthy_dict_with_key d "status" _ Hst).
  cbn. rewrite Hst. cbn.
  destruct (is_substring _ _); auto.
Qed.


Lemma round_to_tick_raises (c : LimitChaser) (px : float) (e : exn) :
  _round_to_tick c px = Raise e ->
  e = ZeroDivisionError \/ e = ValueError \/ e = OverflowError.
Proof.
  unfold _round_to_tick, float_div, int_mul_float, float_of_int.
  destruct (is_zero (tick_size c)); [cbn; intros [= <-]; auto|].
  cbn. destruct (math_floor _) as [k|e'] eqn:Hfloor; cbn.
  - destruct (binary_normalize prec emax k 0 false); cbn; try discriminate.
    intros [= <-]. auto.
  - intros [= <-]. unfold math_floor in Hfloor.
    destruct (SFdiv prec emax px (tick_size c)); try discriminate;
      injection Hfloor as <-; auto.
Qed.

Lemma py_int_raises (s : string) (e : exn) : py_int s = Raise e -> e = ValueError.
Proof.
  unfold py_int. cbv zeta.
  match goal with
  | |- match ?x with _ => _ end = _ -> _ => destruct x
  end; congruence.
Qed.

Lemma need_raises {A} (x : option A) (e : exn) : need x = Raise e -> e = TypeError.
Proof. destruct x; cbn; congruence. Qed.

Lemma ticks_between_raises (c : LimitChaser) (a b : float) (e : exn) :
  ticks_between c a b = Raise e -> e = ZeroDivisionError.
Proof.
  unfold ticks_between, float_div. destruct (is_zero (tick_size c)); congruence.
Qed.

Lemma py_get_raises (x : pyval) (k : string) (e : exn) :
  py_get x k = Raise e -> e = AttributeError.
Proof. destruct x; cbn; congruence. Qed.

Lemma poll_fill_response_raises (resp : pyval) (e : exn) :
  poll_fill_response resp = Raise e -> e = AttributeError.
Proof.
  unfold poll_fill_response, response_status.
  destruct resp as [| | | | | |d]; cbn; try congruence.
  destruct (truthy (default PNone (d !! "status"))); cbn; [discriminate|].
  destruct (truthy (default PNone (d !! "order"))); cbn.
  - destruct (py_get (default PNone (d !! "order")) "status") eqn:H; cbn;
      [discriminate|]. intros [= <-]. apply (py_get_raises _ _ _ H).
  - discriminate.
Qed.

Lemma sdk_execute_limit_order_raises (zscore : option float) (trend : option string)
    (symbol : string) (is_buy : bool) (size_in_asset limit_price : float)
    (v v' : V) (e : exn) :
  sdk_execute_limit_order exchange_order round5 py_float py_repr zscore trend
    symbol is_buy size_in_asset limit_price v = (Raise e, v') ->
  round5 limit_price = Raise e.
Proof.
  unfold sdk_execute_limit_order, _round_limit_price_for_hyperliquid.
  destruct (SFeqb limit_price zero).
  - destruct (exchange_order _ _ _ _ _) as [[r|e'] v1]; [|discriminate].
    destruct (limit_order_answer _ _ _ _ _ _); discriminate.
  - destruct (round5 limit_price) as [px|e']; [|congruence].
    destruct (exchange_order _ _ _ _ _) as [[r|e'] v1]; [|discriminate].
    destruct (limit_order_answer _ _ _ _ _ _); discriminate.
Qed.

Lemma on_quote_sdk_never_account_error
    (exchange_cancel : string -> Z -> V -> Res pyval * V)
    (query_order_by_oid : Z -> V -> Res pyval * V)
    (coin : string) (q : Quote) (env : Env V) :
  (forall p, round5 p <> Raise AccountNotInitializedError) ->
  fst (on_quote
         (LiveExchangeClient
            (sdk_executor exchange_order round5 py_float py_repr
               exchange_cancel query_order_by_oid) coin) q env)
  <> Raise AccountNotInitializedError.
Proof.
  intros Hround. destruct env as [c log v]. engine.
  unfold live_poll_fill, live_cancel, live_place_limit, get_order_status,
    cancel_order, sdk_execute_limit_order, _round_limit_price_for_hyperliquid. cbn.
  repeat branch; try discriminate.
  all: repeat match goal with
       | H : _round_to_tick _ _ = Raise _ |- _ =>
           apply round_to_tick_raises in H as [->|[->| ->]]
       | H : py_int _ = Raise _ |- _ => apply py_int_raises in H as ->
       | H : need _ = Raise _ |- _ => apply need_raises in H as ->
       | H : ticks_between _ _ _ = Raise _ |- _ => apply ticks_between_raises in H as ->
       | H : poll_fill_response _ = Raise _ |- _ =>
           apply poll_fill_response_raises in H as ->
       | H : sdk_execute_limit_order _ _ _ _ _ _ _ _ _ _ _ = (Raise _, _) |- _ =>
           apply sdk_execute_limit_order_raises in H
       end; try discriminate.
  all: intros [= ->]; eapply Hround; eassumption.
Qed.

(** X18: over the live gateway and this executor the loop's
    [except AccountNotInitializedError] branch is never entered: no run
    of the loop is left by that exception, whatever the SDK answers or
    raises (the price rounding, the one step outside the [try], raises
    only [ValueError] or [OverflowError]). *)
Theorem account_error_never_leaves_the_loop
    (exchange_cancel : string -> Z -> V -> Res pyval * V)
    (query_order_by_oid : Z -> V -> Res pyval * V)
    (coin : string) (quotes : list Quote) (last_check : Z) (env : Env V) :
  (forall p, round5 p <> Raise AccountNotInitializedError) ->
  fst (fst (consumer
              (on_quote
                 (LiveExchangeClient
                    (sdk_executor exchange_order round5 py_float py_repr
                       exchange_cancel query_order_by_oid) coin))
              quotes last_check env))
  <> Propagated AccountNotInitializedError.
Proof.
  intros Hround. revert last_check env.
  induction quotes as [|quote quotes IH]; intros last_check env.
  - discriminate.
  - cbn [consumer].
    destruct (ts_ms quote - last_check <? REFRESH_INTERVAL_MS); [apply IH|].
    pose proof (on_quote_sdk_never_account_error exchange_cancel query_order_by_oid
                  coin quote env Hround) as Hstep.
    destruct (on_quote _ quote env) as [[out|e] env1]; cbn [fst] in *.
    + destruct (is_terminal out); [discriminate|apply IH].
    + intros [= ->]. apply Hstep. reflexivity.
Qed.

Lemma contains_filled_char (c : ascii) :
  is_substring "filled" (String c EmptyString) = false.
Proof. unfold is_substring, is_prefix. rewrite !andb_false_r. reflexivity. Qed.

Lemma contains_resting_char (c : ascii) :
  is_substring "resting" (String c EmptyString) = false.
Proof. unfold is_substring, is_prefix. rewrite !andb_false_r. reflexivity. Qed.

Lemma oid_or_none_some (oid : pyval) (n : Z) :
  oid_or_none oid = Returns (Some n) -> py_int_of oid = Returns n.
Proof.
  unfold oid_or_none.
  destruct oid as [|b|z|f|str|l|d]; cbn; try discriminate; try congruence.
  - destruct f; cbn; congruence.
  - destruct (py_int str); cbn; congruence.
Qed.

Lemma limit_order_answer_some (is_buy : bool) (zscore : option float)
    (trend : option string) (resp : pyval) (n : Z) :
  limit_order_answer py_float py_repr is_buy zscore trend resp = Returns (Some n) ->
  answer_carries resp n.
Proof.
  unfold limit_order_answer.
  destruct (truthy resp) eqn:Htruthy; cbn; [|discriminate].
  destruct resp as [| | | | | |d]; cbn; try discriminate.
  destruct (eq_str (default PNone (d !! "status")) "err") eqn:Herr; cbn.
  { destruct (is_substring _ _); discriminate. }
  destruct (eq_str (default PNone (d !! "status")) "ok") eqn:Hok; cbn; [|discriminate].
  apply eq_str_true, default_is_str in Hok.
  destruct (d !! "response") as [r|] eqn:Hr; cbn; [|discriminate].
  destruct (py_contains "data" r) as [[|]|] eqn:Hdata; cbn; try discriminate.
  destruct r as [| | | | | |r]; cbn; try discriminate.
  destruct (r !! "data") as [dat|] eqn:Hdat; cbn; [|discriminate].
  destruct (py_contains "statuses" dat) as [[|]|] eqn:Hsts; cbn; try discriminate.
  destruct dat as [| | | | | |dat]; cbn; try discriminate.
  destruct (dat !! "statuses") as [sts|] eqn:Hstatuses; cbn; [|discriminate].
  destruct sts as [| | | |str|l|sd]; cbn; try discriminate.
  { destruct str as [|ch str]; cbn; [discriminate|].
    rewrite contains_filled_char. cbn. rewrite contains_resting_char. cbn. discriminate. }
  destruct l as [|st rest]; cbn; [discriminate|].
  destruct (py_contains "filled" st) as [[|]|] eqn:Hfilled; cbn; try discriminate.
  - destruct st as [| | | | | |st]; cbn; try discriminate.
    destruct (st !! "filled") as [fi|] eqn:Hfi; cbn; [|discriminate].
    destruct fi as [| | | | | |fi]; cbn; try discriminate.
    destruct (fi !! "totalSz") as [tsz|] eqn:Htsz; cbn; [|discriminate].
    destruct (fi !! "avgPx") as [apx|] eqn:Hapx; cbn; [|discriminate].
    intros H.
    assert (Hoid : oid_or_none (default PNone (fi !! "oid")) = Returns (Some n)).
    { destruct (is_buy && _ && _); cbn in H; [|exact H].
      destruct (py_float tsz); cbn in H; [|discriminate].
      destruct (py_float apx); cbn in H; [exact H|discriminate]. }
    clear H.
    destruct (fi !! "oid") as [oid|] eqn:Hoid'; cbn in Hoid; [|discriminate].
    exists d, r, dat, st, rest. repeat split; try assumption.
    left. exists fi, oid. repeat split; eauto.
    apply oid_or_none_some, Hoid.
  - destruct (py_contains "resting" st) as [[|]|] eqn:Hresting; cbn; try discriminate.
    destruct st as [| | | | | |st]; cbn; try discriminate.
    destruct (st !! "resting") as [ri|] eqn:Hri; cbn; [|discriminate].
    destruct ri as [| | | | | |ri]; cbn; try discriminate.
    intros H.
    assert (Hnf : st !! "filled" = None).
    { cbn in Hfilled. destruct (st !! "filled"); [discriminate|reflexivity]. }
    exists d, r, dat, st, rest. repeat split; try assumption.
    right. split; [exact Hnf|]. exists ri.
    destruct (truthy (default PNone (ri !! "oid"))) eqn:Ht; cbn in H.
    + destruct (ri !! "oid") as [oid|] eqn:Hoid; cbn in H, Ht; [|discriminate].
      exists oid. split; [exact Hri|]. split; [left; reflexivity|].
      apply oid_or_none_some, H.
    + destruct (ri !! "orderId") as [oid|] eqn:Hoid; cbn in H; [|discriminate].
      exists oid. split; [exact Hri|]. split; [right; reflexivity|].
      apply oid_or_none_some, H.
Qed.

(** X19: [execute_limit_order] returns an order id only when the SDK
    answered, with status ["ok"], a first status entry that is
    ["filled"] with an ["oid"] (and the [totalSz] and [avgPx] its log
    line reads) or ["resting"] with an ["oid"] or ["orderId"], and the id
    is that value read by [int]. Any other answer, and any exception of
    the SDK, gives [None]. *)
Theorem order_id_only_from_answer (zscore : option float) (trend : option string)
    (symbol : string) (is_buy : bool) (size_in_asset limit_price : float)
    (v v' : V) (n : Z) :
  sdk_execute_limit_order exchange_order round5 py_float py_repr zscore trend
    symbol is_buy size_in_asset limit_price v = (Ok (Some n), v') ->
  exists limit_px resp,
    _round_limit_price_for_hyperliquid round5 limit_price = Ok limit_px /\
    exchange_order symbol is_buy size_in_asset limit_px v = (Ok resp, v') /\
    answer_carries resp n.
Proof.
  unfold sdk_execute_limit_order.
  destruct (_round_limit_price_for_hyperliquid round5 limit_price) as [px|];
    [|discriminate].
  destruct (exchange_order symbol is_buy size_in_asset px v) as [[resp|e] v1] eqn:Hsdk;
    [|discriminate].
  destruct (limit_order_answer _ _ _ _ _ resp) as [r|] eqn:Hans; [|discriminate].
  intros [= -> <-]. exists px, resp. repeat split; [exact Hsdk|].
  eapply limit_order_answer_some, Hans.
Qed.

(** X20: on a well-formed answer for a resting order with a non-zero
    integer ["oid"], [execute_limit_order] returns that id; with
    ["oid"] [0] the [or] falls through to ["orderId"], and without one
    the placement is reported as failed. The answer is one the log lines
    of the [try] block can print ([printable]): an integer of more than
    4300 digits anywhere in it, or nesting beyond the recursion limit,
    makes the first of them raise, and the method returns [None]. *)
Theorem resting_answer_gives_the_id (zscore : option float) (trend : option string)
    (symbol : string) (is_buy : bool) (size_in_asset limit_price limit_px : float)
    (v v' : V) (d r dat st ri : gmap string pyval) (rest : list pyval) (n : Z) :
  _round_limit_price_for_hyperliquid round5 limit_price = Ok limit_px ->
  exchange_order symbol is_buy size_in_asset limit_px v = (Ok (PDict d), v') ->
  printable (PDict d) ->
  d !! "status" = Some (PStr "ok") ->
  d !! "response" = Some (PDict r) -> r !! "data" = Some (PDict dat) ->
  dat !! "statuses" = Some (PList (PDict st :: rest)) ->
  st !! "filled" = None -> st !! "resting" = Some (PDict ri) ->
  ri !! "oid" = Some (PInt n) -> ri !! "orderId" = None ->
  sdk_execute_limit_order exchange_order round5 py_float py_repr zscore trend
    symbol is_buy size_in_asset limit_price v
  = (Ok (if n =? 0 then None else Some n), v').
Proof.
  intros Hround Hsdk _ Hst Hr Hdat Hsts Hnf Hri Hoid Hnone.
  unfold sdk_execute_limit_order. rewrite Hround, Hsdk.
  unfold limit_order_answer.
  rewrite (truthy_dict_with_key d "status" _ Hst).
  cbn. rewrite Hst. cbn. rewrite Hr. cbn. rewrite Hdat. cbn. rewrite Hsts. cbn.
  rewrite Hnf. cbn. rewrite Hri. cbn. rewrite Hoid. cbn.
  unfold truthy. destruct (n =? 0); cbn; [rewrite Hnone|]; reflexivity.
Qed.

End execute_limit_order_properties.


Lemma account_error_never_leaves_the_loop_witness :
  fst (fst (consumer (on_quote (LiveExchangeClient rejecting_executor COIN))
              three_quotes 0 (Build_Env usage_chaser [] (paper [] []))))
  <> Propagated AccountNotInitializedError.
Proof.
  apply (account_error_never_leaves_the_loop (order_answering rejection) Ok
           (fun _ => Throws (Builtin ValueError)) (fun _ => EmptyString)
           paper_cancel paper_query COIN three_quotes 0
           (Build_Env usage_chaser [] (paper [] []))).
  intros p. discriminate.
Defined.

Lemma order_id_only_from_answer_witness :
  exists limit_px resp,
    _round_limit_price_for_hyperliquid Ok p100_0 = Ok limit_px /\
    order_answering (resting_answer 77) COIN true ORDER_SIZE limit_px (paper [] [])
      = (Ok resp, {| placements := []; filled := [];
                     sent := [SentOrder COIN true ORDER_SIZE p100_0] |}) /\
    answer_carries resp 77.
Proof.
  apply (order_id_only_from_answer (order_answering (resting_answer 77)) Ok
           (fun _ => Throws (Builtin ValueError)) (fun _ => EmptyString)
           None None COIN true ORDER_SIZE p100_0 (paper [] [])).
  vm_compute. reflexivity.
Defined.

Lemma resting_answer_gives_the_id_witness :
  sdk_execute_limit_order (order_answering (resting_answer 77)) Ok
    (fun _ => Throws (Builtin ValueError)) (fun _ => EmptyString) None None
    COIN true ORDER_SIZE p100_0 (paper [] [])
  = (Ok (Some 77),
     {| placements := []; filled := [];
        sent := [SentOrder COIN true ORDER_SIZE p100_0] |}).
Proof.
  apply (resting_answer_gives_the_id (order_answering (resting_answer 77)) Ok
           (fun _ => Throws (Builtin ValueError)) (fun _ => EmptyString)
           None None COIN true ORDER_SIZE p100_0 p100_0 (paper [] []) _
           {[ "status" := PStr "ok";
              "response" :=
                PDict {[ "type" := PStr "order";
                         "data" :=
                           PDict {[ "statuses" :=
                             PList [PDict {[ "resting" := PDict {[ "oid" := PInt 77 ]} ]}] ]} ]} ]}
           {[ "type" := PStr "order";
              "data" :=
                PDict {[ "statuses" :=
                  PList [PDict {[ "resting" := PDict {[ "oid" := PInt 77 ]} ]}] ]} ]}
           {[ "statuses" :=
                PList [PDict {[ "resting" := PDict {[ "oid" := PInt 77 ]} ]}] ]}
           {[ "resting" := PDict {[ "oid" := PInt 77 ]} ]}
           {[ "oid" := PInt 77 ]} [] 77);
    first
      [ vm_compute; reflexivity
      | unfold printable; repeat first
          [ apply printable_Dict | apply printable_List | apply printable_Str
          | apply printable_Int; vm_compute; reflexivity
          | apply map_Forall_insert_2 | apply map_Forall_singleton
          | apply map_Forall_empty
          | apply Forall_cons_2 | apply Forall_nil_2 ] ].
Defined.

Lemma counters_over_a_run_witness :
  let '(exit, _, env') :=
    consumer (on_quote (CountingLiveExchangeClient live)) three_quotes 0
      (Build_Env usage_chaser [] (Build_Counting 0 0 (paper [Some 1; Some 2] []))) in
  match exit with
  | Propagated _ => True
  | Suspended =>
      (_cancel_count (venue env') + tracked (self env') <= _place_count (venue env'))%nat
  | Returned o =>
      (_cancel_count (venue env') <= _place_count (venue env'))%nat /\
      (1 <= _place_count (venue env'))%nat /\
      (o = "aborted" -> (1 <= _cancel_count (venue env'))%nat)
  end.
Proof.
  apply (counters_over_a_run live three_quotes 0 usage_chaser []
           (paper [Some 1; Some 2] [])).
  reflexivity.
Defined.

Lemma run_keeps_fields_coherent_witness :
  coherent (self (snd (consumer (on_quote live) three_quotes 0
                         (Build_Env usage_chaser [] (paper [Some 1; Some 2] [])))))
  = true.
Proof.
  apply (run_keeps_fields_coherent live three_quotes 0
           (Build_Env usage_chaser [] (paper [Some 1; Some 2] []))).
  reflexivity.
Defined.

Lemma poll_fill_response_true_iff_witness :
  poll_fill_response
    (PDict {[ "order" := PDict {[ "status" := PStr "filled" ]} ]}) = Ok true.
Proof.
  apply (proj2 (poll_fill_response_true_iff
                  {[ "order" := PDict {[ "status" := PStr "filled" ]} ]})).
  right. split; [vm_compute; reflexivity|].
  exists {[ "status" := PStr "filled" ]}. split; vm_compute; reflexivity.
Defined.

(** The three quotes of the scenario, half a second apart, through the
    counting wrapper: two placements, two cancels, ["aborted"]. *)
Example counted_scenario :
  let '(exit, last_check, env') :=
    consumer (on_quote (CountingLiveExchangeClient live)) three_quotes 0
      (Build_Env usage_chaser [] (Build_Counting 0 0 (paper [Some 1; Some 2] []))) in
  exit = Returned "aborted" /\ last_check = 2200 /\
  _place_count (venue env') = 2%nat /\ _cancel_count (venue env') = 2%nat.
Proof. vm_compute. repeat split; reflexivity. Qed.

(** * The market-data stream *)

Section stream_properties.
Context (py_float : pyval -> Try float).

Lemma truthy_or_empty (x : pyval) :
  truthy (if truthy x then x else PList []) = truthy x.
Proof. destruct (truthy x) eqn:H; [exact H|reflexivity]. Qed.

(** X21: a message is skipped, without an exception and without looking
    at its data, whenever it is a dict whose ["channel"] is not
    ["l2Book"], absent included. *)
Theorem other_channel_is_skipped (now : Z) (d : gmap string pyval) :
  d !! "channel" <> Some (PStr "l2Book") ->
  decode_l2 py_float now (PDict d) = Returns None.
Proof.
  intros H. unfold decode_l2. cbn.
  assert (Hne : eq_str (default PNone (d !! "channel")) "l2Book" = false).
  { destruct (eq_str _ _) eqn:E; [|reflexivity].
    apply eq_str_true, default_is_str in E. contradiction. }
  rewrite Hne. reflexivity.
Qed.

(** X22: an incomplete book is skipped without an exception: a book
    message whose ["levels"] is absent, not a list or a list of fewer
    than two entries, or one of whose first two levels is empty or
    [None], puts nothing in the queue. *)
Theorem incomplete_book_is_skipped (now : Z) (d book : gmap string pyval) :
  d !! "channel" = Some (PStr "l2Book") ->
  d !! "data" = Some (PDict book) ->
  match book !! "levels" with
  | Some (PList (level0 :: level1 :: _)) => truthy level0 && truthy level1 = false
  | _ => True
  end ->
  decode_l2 py_float now (PDict d) = Returns None.
Proof.
  intros Hch Hdata Hlevels. unfold decode_l2. cbn.
  rewrite Hch, Hdata. cbn.
  destruct (book !! "levels") as [levels|]; cbn; [|reflexivity].
  destruct levels as [| | | | |l|]; try reflexivity.
  destruct l as [|level0 [|level1 l]]; try reflexivity.
  rewrite !truthy_or_empty, Hlevels. reflexivity.
Qed.

(** X23: a quote is put in the queue only for a dict message of channel
    ["l2Book"] whose [data.levels] is a list with two non-empty first
    entries; the quote carries the local clock and [float] of the
    ["px"] and ["sz"] of entry 0 of each side, and of nothing else. *)
Theorem published_quote_is_top_of_book (now : Z) (msg : pyval) (q : Quote) :
  decode_l2 py_float now msg = Returns (Some q) ->
  exists d book bids asks more b0 a0 bpx bsz apx asz,
    msg = PDict d /\ d !! "channel" = Some (PStr "l2Book") /\
    d !! "data" = Some (PDict book) /\
    book !! "levels" = Some (PList (bids :: asks :: more)) /\
    py_item0 bids = Returns b0 /\ py_item0 asks = Returns a0 /\
    py_item b0 "px" = Returns bpx /\ py_item b0 "sz" = Returns bsz /\
    py_item a0 "px" = Returns apx /\ py_item a0 "sz" = Returns asz /\
    py_float bpx = Returns (bid_px q) /\ py_float bsz = Returns (bid_sz q) /\
    py_float apx = Returns (ask_px q) /\ py_float asz = Returns (ask_sz q) /\
    ts_ms q = now.
Proof.
  unfold decode_l2.
  destruct msg as [| | | | | |d]; cbn; try discriminate.
  destruct (eq_str (default PNone (d !! "channel")) "l2Book") eqn:Hch; cbn;
    [|discriminate].
  apply eq_str_true, default_is_str in Hch.
  destruct (d !! "data") as [book|] eqn:Hdata; cbn.
  2:{ rewrite lookup_empty. cbn. discriminate. }
  destruct book as [| | | | | |book]; cbn; try discriminate.
  destruct (book !! "levels") as [levels|] eqn:Hlevels; cbn; [|discriminate].
  destruct levels as [| | | | |l|]; try discriminate.
  destruct l as [|bids [|asks more]]; try discriminate.
  rewrite !truthy_or_empty.
  destruct (truthy bids) eqn:Hb; cbn; [|discriminate].
  destruct (truthy asks) eqn:Ha; cbn; [|discriminate].
  destruct (py_item0 bids) as [b0|] eqn:Hb0; cbn; [|discriminate].
  destruct (py_item0 asks) as [a0|] eqn:Ha0; cbn; [|discriminate].
  destruct (py_item b0 "px") as [bpx|] eqn:Hbpx; cbn; [|discriminate].
  destruct (py_float bpx) as [bp|] eqn:Hbp; cbn; [|discriminate].
  destruct (py_item b0 "sz") as [bsz|] eqn:Hbsz; cbn; [|discriminate].
  destruct (py_float bsz) as [bs|] eqn:Hbs; cbn; [|discriminate].
  destruct (py_item a0 "px") as [apx|] eqn:Hapx; cbn; [|discriminate].
  destruct (py_float apx) as [ap|] eqn:Hap; cbn; [|discriminate].
  destruct (py_item a0 "sz") as [asz|] eqn:Hasz; cbn; [|discriminate].
  destruct (py_float asz) as [az|] eqn:Haz; cbn; [|discriminate].
  intros [= <-]. cbn.
  exists d, book, bids, asks, more, b0, a0, bpx, bsz, apx, asz.
  repeat split; assumption.
Qed.

(** X24: a level without ["px"] is not skipped: on a book message with
    two non-empty sides whose best bid is a dict lacking ["px"], the
    decoding raises [KeyError], which ends the read loop. *)
Theorem level_without_px_ends_the_stream (now : Z) (d book b0 : gmap string pyval)
    (bids asks more : list pyval) (rest : list (Z * pyval)) :
  d !! "channel" = Some (PStr "l2Book") ->
  d !! "data" = Some (PDict book) ->
  book !! "levels" = Some (PList (PList (PDict b0 :: bids) :: PList asks :: more)) ->
  asks <> [] -> b0 !! "px" = None ->
  decode_l2 py_float now (PDict d) = Throws KeyError /\
  stream py_float ((now, PDict d) :: rest) = ([], Some KeyError).
Proof.
  intros Hch Hdata Hlevels Hasks Hpx.
  assert (Hdec : decode_l2 py_float now (PDict d) = Throws KeyError).
  { unfold decode_l2. cbn. rewrite Hch, Hdata. cbn. rewrite Hlevels. cbn.
    destruct asks as [|a0 asks]; [contradiction|].
    change (truthy (PList (PDict b0 :: bids))) with true.
    change (truthy (PList (a0 :: asks))) with true.
    cbn. rewrite Hpx. reflexivity. }
  split; [exact Hdec|]. cbn [stream]. rewrite Hdec. reflexivity.
Qed.

(** X25: the read loop over messages received in two batches puts in
    the queue the quotes of the first batch followed, unless an
    exception ended the loop, by those of the second. *)
Theorem stream_app (msgs1 msgs2 : list (Z * pyval)) :
  stream py_float (msgs1 ++ msgs2) =
    match stream py_float msgs1 with
    | (qs, Some r) => (qs, Some r)
    | (qs, None) =>
        let '(qs', r) := stream py_float msgs2 in (qs ++ qs', r)
    end.
Proof.
  induction msgs1 as [|[now msg] msgs1 IH]; cbn [app stream].
  - destruct (stream py_float msgs2). reflexivity.
  - destruct (decode_l2 py_float now msg) as [[q|]|r]; [|exact IH|reflexivity].
    rewrite IH. destruct (stream py_float msgs1) as [qs [r|]]; [reflexivity|].
    destruct (stream py_float msgs2). reflexivity.
Qed.

End stream_properties.

Example decode_examples :
  decode_l2 float_of_example 1700
    (l2_message (level (PStr "100.3") (PStr "1.0")) (level (PStr "100.4") (PStr "1.0")))
  = Returns (Some (quote_at 1700 (decimal 1003 10) (decimal 1004 10))) /\
  decode_l2 float_of_example 1700 (PDict {[ "channel" := PStr "pong" ]}) = Returns None /\
  decode_l2 float_of_example 1700
    (PDict {[ "channel" := PStr "l2Book"; "data" := PDict ∅ ]}) = Returns None /\
  decode_l2 float_of_example 1700 (PList []) = Throws (Builtin AttributeError).
Proof. vm_compute. repeat split; reflexivity. Qed.

Lemma other_channel_is_skipped_witness :
  decode_l2 float_of_example 1700 (PDict {[ "channel" := PStr "pong" ]}) = Returns None.
Proof.
  apply (other_channel_is_skipped float_of_example 1700 {[ "channel" := PStr "pong" ]}).
  vm_compute. discriminate.
Defined.

Lemma incomplete_book_is_skipped_witness :
  decode_l2 float_of_example 1700
    (PDict {[ "channel" := PStr "l2Book";
              "data" := PDict {[ "levels" :=
                PList [PList []; PList [level (PStr "100.4") (PStr "1.0")]] ]} ]})
  = Returns None.
Proof.
  apply (incomplete_book_is_skipped float_of_example 1700
           {[ "channel" := PStr "l2Book";
              "data" := PDict {[ "levels" :=
                PList [PList []; PList [level (PStr "100.4") (PStr "1.0")]] ]} ]}
           {[ "levels" :=
                PList [PList []; PList [level (PStr "100.4") (PStr "1.0")]] ]});
    vm_compute; reflexivity.
Defined.

Lemma published_quote_is_top_of_book_witness :
  exists d book bids asks more b0 a0 bpx bsz apx asz,
    l2_message (level (PStr "100.3") (PStr "1.0")) (level (PStr "100.4") (PStr "1.0"))
      = PDict d /\
    d !! "channel" = Some (PStr "l2Book") /\
    d !! "data" = Some (PDict book) /\
    book !! "levels" = Some (PList (bids :: asks :: more)) /\
    py_item0 bids = Returns b0 /\ py_item0 asks = Returns a0 /\
    py_item b0 "px" = Returns bpx /\ py_item b0 "sz" = Returns bsz /\
    py_item a0 "px" = Returns apx /\ py_item a0 "sz" = Returns asz /\
    float_of_example bpx = Returns (decimal 1003 10) /\
    float_of_example bsz = Returns (decimal 1 1) /\
    float_of_example apx = Returns (decimal 1004 10) /\
    float_of_example asz = Returns (decimal 1 1) /\
    1700 = 1700.
Proof.
  apply (published_quote_is_top_of_book float_of_example 1700
           (l2_message (level (PStr "100.3") (PStr "1.0"))
                       (level (PStr "100.4") (PStr "1.0")))
           (quote_at 1700 (decimal 1003 10) (decimal 1004 10))).
  vm_compute. reflexivity.
Defined.

Lemma level_without_px_ends_the_stream_witness :
  stream float_of_example
    [(1700, PDict {[ "channel" := PStr "l2Book";
                     "data" := PDict {[ "levels" :=
                       PList [PList [PDict {[ "sz" := PStr "1.0" ]}];
                              PList [level (PStr "100.4") (PStr "1.0")]] ]} ]});
     (1800, l2_message (level (PStr "100.3") (PStr "1.0"))
                       (level (PStr "100.4") (PStr "1.0")))]
  = ([], Some KeyError).
Proof.
  destruct (level_without_px_ends_the_stream float_of_example 1700
              {[ "channel" := PStr "l2Book";
                 "data" := PDict {[ "levels" :=
                   PList [PList [PDict {[ "sz" := PStr "1.0" ]}];
                          PList [level (PStr "100.4") (PStr "1.0")]] ]} ]}
              {[ "levels" :=
                   PList [PList [PDict {[ "sz" := PStr "1.0" ]}];
                          PList [level (PStr "100.4") (PStr "1.0")]] ]}
              {[ "sz" := PStr "1.0" ]} [] [level (PStr "100.4") (PStr "1.0")] []
              [(1800, l2_message (level (PStr "100.3") (PStr "1.0"))
                                 (level (PStr "100.4") (PStr "1.0")))])
    as [_ H];
    [vm_compute; reflexivity | vm_compute; reflexivity | vm_compute; reflexivity
    | discriminate | vm_compute; reflexivity | exact H].
Defined.
